(** * Language Translation Tool: a shallow embedding of [app.py]

    The Flask backend of the translation tool: the language catalog
    ([TranslationService.get_supported_languages]), the translation gateway
    ([TranslationService.translate_text]) and the request handlers
    ([translate], [get_languages], [not_found], [internal_error]).

    Python values are the values [json.loads] produces; a [str] is a
    sequence of Unicode code points; exceptions are threaded through a
    small trace-and-exception monad; the network, the exception messages
    and [str()] on non-strings are supplied by a [Runtime].  The [index]
    route only renders the catalog as HTML and is left out. *)

From Stdlib Require Import List NArith ZArith Bool Lia String Ascii.
From Stdlib Require Import Floats.SpecFloat.
Import ListNotations.

Set Implicit Arguments.
Set Warnings "-register-all".

(** ** Python strings *)

(** A Python [str] is a sequence of code points; CPython admits every
    code point below [0x110000], lone surrogates included. *)
Definition pystr := list N.

Definition code_point (c : N) : Prop := (c < 0x110000)%N.

Definition is_surrogate (c : N) : bool := ((0xD800 <=? c) && (c <=? 0xDFFF))%N.

(** A scalar value: a code point that is not a surrogate. *)
Definition is_scalar (c : N) : bool :=
  ((c <? 0x110000) && negb (is_surrogate c))%N.

Definition is_byte (b : N) : Prop := (b < 256)%N.

(** A string literal of the source, as code points (ASCII literals only). *)
Definition lit (s : string) : pystr := map N_of_ascii (list_ascii_of_string s).
Arguments lit : simpl never.

Fixpoint pystr_eqb (s t : pystr) : bool :=
  match s, t with
  | [], [] => true
  | c :: s', d :: t' => (c =? d)%N && pystr_eqb s' t'
  | _, _ => false
  end.

(** [len(s)] *)
Definition len (A : Type) (s : list A) : Z := Z.of_nat (List.length s).

(** [Py_UNICODE_ISSPACE]: the code points [str.isspace] accepts, which are
    the ones [str.strip()] removes. *)
Definition isspace (c : N) : bool :=
  (((0x09 <=? c) && (c <=? 0x0D))
   || ((0x1C <=? c) && (c <=? 0x20))
   || (c =? 0x85) || (c =? 0xA0) || (c =? 0x1680)
   || ((0x2000 <=? c) && (c <=? 0x200A))
   || (c =? 0x2028) || (c =? 0x2029) || (c =? 0x202F)
   || (c =? 0x205F) || (c =? 0x3000))%N.

Fixpoint lstrip (s : pystr) : pystr :=
  match s with
  | c :: s' => if isspace c then lstrip s' else s
  | [] => []
  end.

Definition rstrip (s : pystr) : pystr := rev (lstrip (rev s)).

(** [s.strip()] *)
Definition strip (s : pystr) : pystr := rstrip (lstrip s).

Fixpoint startswith (s p : pystr) : bool :=
  match p, s with
  | [], _ => true
  | d :: p', c :: s' => (c =? d)%N && startswith s' p'
  | _ :: _, [] => false
  end.

(** [p in s] on two strings: substring search. *)
Fixpoint str_contains (s p : pystr) : bool :=
  startswith s p ||
  match s with
  | [] => false
  | _ :: s' => str_contains s' p
  end.

(** ** Python values, as [json.loads] builds them *)

Inductive pyval : Type :=
| PNone
| PBool (b : bool)
| PInt (z : Z)
| PFloat (f : spec_float)
| PStr (s : pystr)
| PList (l : list pyval)
| PDict (d : list (pystr * pyval)).

(** [type(v).__name__] *)
Definition type_name (v : pyval) : string :=
  match v with
  | PNone => "NoneType"
  | PBool _ => "bool"
  | PInt _ => "int"
  | PFloat _ => "float"
  | PStr _ => "str"
  | PList _ => "list"
  | PDict _ => "dict"
  end.

(** Dictionaries keep insertion order; a key is looked up by string
    equality. *)
Fixpoint dict_lookup (k : pystr) (d : list (pystr * pyval)) : option pyval :=
  match d with
  | [] => None
  | (k', v) :: d' => if pystr_eqb k k' then Some v else dict_lookup k d'
  end.

(** [d.get(key, default)] on a dictionary *)
Definition dict_get (d : list (pystr * pyval)) (k : pystr) (default : pyval)
    : pyval :=
  match dict_lookup k d with
  | Some v => v
  | None => default
  end.

Definition dict_keys (d : list (pystr * pyval)) : list pystr := map fst d.

(** *** Equality [==] *)

(** The integer a float denotes, when it denotes one. *)
Definition float_to_int (f : spec_float) : option Z :=
  match f with
  | S754_zero _ => Some 0%Z
  | S754_finite s m e =>
      let sign (z : Z) := if s then Z.opp z else z in
      if (0 <=? e)%Z then Some (sign (Z.pos m * 2 ^ e)%Z)
      else if (Z.pos m mod 2 ^ (- e) =? 0)%Z
           then Some (sign (Z.pos m / 2 ^ (- e))%Z)
           else None
  | S754_infinity _ | S754_nan => None
  end.

Definition float_eq_int (f : spec_float) (z : Z) : bool :=
  match float_to_int f with
  | Some z' => (z' =? z)%Z
  | None => false
  end.

(** [bool] is a subclass of [int]: [True == 1]. *)
Definition int_of_bool (b : bool) : Z := if b then 1%Z else 0%Z.

Definition is_nan (v : pyval) : bool :=
  match v with
  | PFloat S754_nan => true
  | _ => false
  end.

(** [a == b].  Numbers compare by value across [bool], [int] and [float];
    a NaN differs from itself.  Inside a list or a dict the elements are
    compared with [PyObject_RichCompareBool], which first tests identity:
    [json.loads] returns the one module-level NaN object for every [NaN]
    literal, so two NaN elements are identical there. *)
Fixpoint py_eq (a b : pyval) {struct a} : bool :=
  match a, b with
  | PNone, PNone => true
  | PBool x, PBool y => Bool.eqb x y
  | PBool x, PInt z => (int_of_bool x =? z)%Z
  | PInt z, PBool y => (z =? int_of_bool y)%Z
  | PBool x, PFloat f => float_eq_int f (int_of_bool x)
  | PFloat f, PBool y => float_eq_int f (int_of_bool y)
  | PInt x, PInt y => (x =? y)%Z
  | PInt x, PFloat f => float_eq_int f x
  | PFloat f, PInt y => float_eq_int f y
  | PFloat f, PFloat g =>
      match SFcompare f g with
      | Some Eq => true
      | _ => false
      end
  | PStr s, PStr t => pystr_eqb s t
  | PList l, PList l' =>
      (fix elems (l l' : list pyval) {struct l} : bool :=
         match l, l' with
         | [], [] => true
         | x :: r, y :: r' =>
             ((is_nan x && is_nan y) || py_eq x y) && elems r r'
         | _, _ => false
         end) l l'
  | PDict d, PDict d' =>
      (List.length d =? List.length d')%nat &&
      (fix items (d : list (pystr * pyval)) {struct d} : bool :=
         match d with
         | [] => true
         | (k, v) :: r =>
             match dict_lookup k d' with
             | Some w => ((is_nan v && is_nan w) || py_eq v w) && items r
             | None => false
             end
         end) d
  | _, _ => false
  end.

(** [a != b] *)
Definition py_ne (a b : pyval) : bool := negb (py_eq a b).

(** Truth value of [v], as [not v] and [if v] take it. *)
Definition py_truthy (v : pyval) : bool :=
  match v with
  | PNone => false
  | PBool b => b
  | PInt z => negb (z =? 0)%Z
  | PFloat (S754_zero _) => false
  | PFloat _ => true
  | PStr s => negb (len s =? 0)%Z
  | PList l => negb (len l =? 0)%Z
  | PDict d => negb (len d =? 0)%Z
  end.

(** ** Exceptions *)

(** The subclasses of [requests.RequestException] the gateway can meet. *)
Inductive request_failure : Type :=
| ConnectTimeout               (* no connection within the timeout *)
| ReadTimeout                  (* no answer within the timeout *)
| ConnectionError              (* DNS failure, connection refused, reset *)
| HTTPError (status : Z)       (* raised by [raise_for_status] *)
| TooManyRedirects
| InvalidURL
| InvalidJSONError.            (* [requests.JSONDecodeError], from [response.json()] *)

(** Instances of [Exception].  [KeyboardInterrupt] and [SystemExit] are
    not: no statement of the program raises them. *)
Inductive exn : Type :=
| RequestException (f : request_failure)
| AttributeError (type attr : string)       (* 'type' object has no attribute 'attr' *)
| KeyError (key : pystr)
| TypeError (msg : string)
| UnicodeEncodeError (pos : nat) (c : N)    (* 'utf-8' codec can't encode ... *)
| ValueError (msg : string)                 (* a value of the right type, unfit *)
| HTTPException (code : Z)                  (* werkzeug: 400, 415 from [get_json] *)
| OtherException (class msg : string).

(** [isinstance(e, requests.RequestException)] *)
Definition is_RequestException (e : exn) : bool :=
  match e with
  | RequestException _ => true
  | _ => false
  end.

(** ** Computations: a trace of outbound calls, then a value or an exception *)

Inductive event : Type :=
| CallTranslateText (text source_lang target_lang : pyval)
| HttpGet (url : pystr).

Inductive result (A : Type) : Type :=
| Return (a : A)
| Raise (e : exn).
Arguments Raise {A} e.

Definition Py (A : Type) : Type := (list event * result A)%type.

Definition ret (A : Type) (a : A) : Py A := ([], Return a).

Definition raise (A : Type) (e : exn) : Py A := ([], Raise e).
Arguments raise {A} e.

Definition bind (A B : Type) (c : Py A) (k : A -> Py B) : Py B :=
  match c with
  | (t, Return a) => let (t', r) := k a in (t ++ t', r)
  | (t, Raise e) => (t, Raise e)
  end.

(** [try: c  except Exception as e: h e] *)
Definition try_except (A : Type) (c : Py A) (h : exn -> Py A) : Py A :=
  match c with
  | (t, Return a) => (t, Return a)
  | (t, Raise e) => let (t', r) := h e in (t ++ t', r)
  end.

Definition emit (ev : event) : Py unit := ([ev], Return tt).

Definition lift (A : Type) (r : result A) : Py A := ([], r).

Definition trace (A : Type) (c : Py A) : list event := fst c.
Definition outcome (A : Type) (c : Py A) : result A := snd c.

Declare Scope py_scope.
Delimit Scope py_scope with py.
Notation "x <- c ;; k" := (bind c (fun x => k))
  (at level 61, c at next level, right associativity) : py_scope.
Notation "c ;;; k" := (bind c (fun _ => k))
  (at level 61, right associativity) : py_scope.
Open Scope py_scope.

(** ** Operations on values that can raise *)

(** [v[key]] for a string [key] *)
Definition py_getitem (v : pyval) (key : pystr) : Py pyval :=
  match v with
  | PDict d =>
      match dict_lookup key d with
      | Some x => ret x
      | None => raise (KeyError key)
      end
  | PStr _ => raise (TypeError "string indices must be integers")
  | PList _ => raise (TypeError "list indices must be integers or slices, not str")
  | _ => raise (TypeError ("'" ++ type_name v ++ "' object is not subscriptable"))
  end.

(** [v.get(key, default)] *)
Definition py_get (v : pyval) (key : pystr) (default : pyval) : Py pyval :=
  match v with
  | PDict d => ret (dict_get d key default)
  | _ => raise (AttributeError (type_name v) "get")
  end.

(** [key in v] for a string [key] *)
Definition py_contains (key : pystr) (v : pyval) : Py bool :=
  match v with
  | PDict d =>
      ret (match dict_lookup key d with Some _ => true | None => false end)
  | PStr s => ret (str_contains s key)
  | PList l => ret (existsb (fun x => py_eq x (PStr key)) l)
  | _ => raise (TypeError ("argument of type '" ++ type_name v
                           ++ "' is not iterable"))
  end.

(** [v.strip()] *)
Definition py_strip (v : pyval) : Py pystr :=
  match v with
  | PStr s => ret (strip s)
  | _ => raise (AttributeError (type_name v) "strip")
  end.

(** ** [urllib.parse.quote] *)

(** One code point in UTF-8, as CPython's encoder writes it; a surrogate
    has no encoding under [errors='strict']. *)
Definition utf8_encode_char (c : N) : option (list N) :=
  if (c <? 0x80)%N then Some [c]
  else if (c <? 0x800)%N then
    Some [N.lor 0xC0 (N.shiftr c 6); N.lor 0x80 (N.land c 0x3F)]
  else if is_surrogate c then None
  else if (c <? 0x10000)%N then
    Some [N.lor 0xE0 (N.shiftr c 12);
          N.lor 0x80 (N.land (N.shiftr c 6) 0x3F);
          N.lor 0x80 (N.land c 0x3F)]
  else
    Some [N.lor 0xF0 (N.shiftr c 18);
          N.lor 0x80 (N.land (N.shiftr c 12) 0x3F);
          N.lor 0x80 (N.land (N.shiftr c 6) 0x3F);
          N.lor 0x80 (N.land c 0x3F)].

(** [s.encode('utf-8', 'strict')], [pos] being the index of the head of [s]
    in the whole string. *)
Fixpoint utf8_encode_from (pos : nat) (s : pystr) : result (list N) :=
  match s with
  | [] => Return []
  | c :: s' =>
      match utf8_encode_char c with
      | None => Raise (UnicodeEncodeError pos c)
      | Some bs =>
          match utf8_encode_from (S pos) s' with
          | Return r => Return (bs ++ r)
          | Raise e => Raise e
          end
      end
  end.

Definition utf8_encode (s : pystr) : result (list N) := utf8_encode_from 0 s.

(** [_ALWAYS_SAFE] (letters, digits and [_.-~]) and the default [safe='/']. *)
Definition is_safe (b : N) : bool :=
  (((0x41 <=? b) && (b <=? 0x5A))
   || ((0x61 <=? b) && (b <=? 0x7A))
   || ((0x30 <=? b) && (b <=? 0x39))
   || (b =? 0x5F) || (b =? 0x2E) || (b =? 0x2D) || (b =? 0x7E)
   || (b =? 0x2F))%N.

(** One digit of ['%{:02X}'.format(b)] *)
Definition hex_digit (n : N) : N :=
  if (n <? 10)%N then (0x30 + n)%N else (0x41 + (n - 10))%N.

Definition percent : N := 0x25.

(** [chr(b) if b in safe else '%{:02X}'.format(b)] *)
Definition quoter (b : N) : pystr :=
  if is_safe b then [b]
  else [percent; hex_digit (b / 16); hex_digit (b mod 16)].

Definition quote_from_bytes (bs : list N) : pystr := flat_map quoter bs.

(** [quote(s)] on a [str] *)
Definition quote_str (s : pystr) : result pystr :=
  match s with
  | [] => Return []
  | _ =>
      match utf8_encode s with
      | Return bs => Return (quote_from_bytes bs)
      | Raise e => Raise e
      end
  end.

(** [quote(v)]: [json.loads] builds no [bytes], so every other value
    reaches [quote_from_bytes] and is refused there. *)
Definition quote (v : pyval) : Py pystr :=
  match v with
  | PStr s => lift (quote_str s)
  | _ => raise (TypeError "quote_from_bytes() expected bytes")
  end.

(** ** URL decoding, as the receiving side performs it *)

Definition hex_value (c : N) : option N :=
  if ((0x30 <=? c) && (c <=? 0x39))%N then Some (c - 0x30)%N
  else if ((0x41 <=? c) && (c <=? 0x46))%N then Some (c - 0x41 + 10)%N
  else if ((0x61 <=? c) && (c <=? 0x66))%N then Some (c - 0x61 + 10)%N
  else None.

(** Percent-decoding to bytes: [%XY] with two hex digits is one byte, any
    other character stands for itself. *)
Fixpoint percent_decode (s : pystr) : list N :=
  match s with
  | [] => []
  | c :: s' =>
      match (c =? percent)%N, s' with
      | true, h :: l :: r =>
          match hex_value h, hex_value l with
          | Some a, Some b => (16 * a + b)%N :: percent_decode r
          | _, _ => c :: percent_decode s'
          end
      | _, _ => c :: percent_decode s'
      end
  end.

Definition is_continuation (b : N) : bool := ((0x80 <=? b) && (b <=? 0xBF))%N.

(** Strict UTF-8 decoding: shortest forms only, no surrogates, nothing
    above [U+10FFFF]. *)
Fixpoint utf8_decode (bs : list N) : option pystr :=
  match bs with
  | [] => Some []
  | b1 :: r1 =>
      if (b1 <? 0x80)%N then option_map (cons b1) (utf8_decode r1)
      else
        match r1 with
        | [] => None
        | b2 :: r2 =>
            if negb (is_continuation b2) then None
            else if ((0xC2 <=? b1) && (b1 <=? 0xDF))%N then
              option_map (cons ((b1 - 0xC0) * 64 + (b2 - 0x80))%N)
                         (utf8_decode r2)
            else
              match r2 with
              | [] => None
              | b3 :: r3 =>
                  if negb (is_continuation b3) then None
                  else if ((0xE0 <=? b1) && (b1 <=? 0xEF))%N then
                    let c := ((b1 - 0xE0) * 4096 + (b2 - 0x80) * 64
                              + (b3 - 0x80))%N in
                    if (c <? 0x800)%N || is_surrogate c then None
                    else option_map (cons c) (utf8_decode r3)
                  else
                    match r3 with
                    | [] => None
                    | b4 :: r4 =>
                        if negb (is_continuation b4) then None
                        else if ((0xF0 <=? b1) && (b1 <=? 0xF4))%N then
                          let c := ((b1 - 0xF0) * 262144 + (b2 - 0x80) * 4096
                                    + (b3 - 0x80) * 64 + (b4 - 0x80))%N in
                          if (c <? 0x10000)%N || (0x10FFFF <? c)%N then None
                          else option_map (cons c) (utf8_decode r4)
                        else None
                    end
              end
        end
  end.

(** URL-decoding of a query value: percent-decode, then read the bytes as
    UTF-8. *)
Definition url_decode (q : pystr) : option pystr := utf8_decode (percent_decode q).

(** ** The runtime: network, [str()] and exception messages *)

(** What [requests.get] hands back: the status line and what
    [response.json()] does with the body. *)
Record Response : Type := {
  status_code : Z;
  json : result pyval
}.

Record Runtime : Type := {
  (** [str(v)] for a value that is not a [str] *)
  str_of : pyval -> pystr;
  (** [str(e)] *)
  exn_str : exn -> pystr;
  (** [requests.get(url, timeout=10)] *)
  requests_get : pystr -> result Response
}.

(** [f"{v}"]: a [str] is inserted as it is. *)
Definition format_value (rt : Runtime) (v : pyval) : pystr :=
  match v with
  | PStr s => s
  | _ => str_of rt v
  end.

(** [response.raise_for_status()]: requests raises [HTTPError] for the
    client and server error ranges, [400 <= status_code < 600]. *)
Definition raise_for_status (r : Response) : Py unit :=
  if ((400 <=? status_code r) && (status_code r <? 600))%Z
  then raise (RequestException (HTTPError (status_code r)))
  else ret tt.

(** ** [TranslationService] *)

Definition base_url : pystr := lit "https://api.mymemory.translated.net/get".

Definition make_url (rt : Runtime) (encoded_text : pystr)
    (source_lang target_lang : pyval) : pystr :=
  base_url ++ lit "?q=" ++ encoded_text ++ lit "&langpair="
    ++ format_value rt source_lang ++ lit "|" ++ format_value rt target_lang.

Definition success_envelope (translated_text source_lang target_lang : pyval)
    : pyval :=
  PDict [(lit "success", PBool true);
         (lit "translated_text", translated_text);
         (lit "source_lang", source_lang);
         (lit "target_lang", target_lang)].

Definition failure_envelope (error : pyval) : pyval :=
  PDict [(lit "success", PBool false); (lit "error", error)].

(** Lines 22 to 32: encode the text, build the URL, send the GET, refuse
    an error status, parse the body. *)
Definition fetch_payload (rt : Runtime)
    (text source_lang target_lang : pyval) : Py pyval :=
  encoded_text <- quote text ;;
  let url := make_url rt encoded_text source_lang target_lang in
  emit (HttpGet url) ;;;
  response <- lift (requests_get rt url) ;;
  raise_for_status response ;;;
  lift (json response).

(** Lines 35 to 46: read the provider's own status out of the payload. *)
Definition read_payload (data source_lang target_lang : pyval) : Py pyval :=
  responseStatus <- py_get data (lit "responseStatus") PNone ;;
  if py_eq responseStatus (PInt 200) then
    responseData <- py_getitem data (lit "responseData") ;;
    translatedText <- py_getitem responseData (lit "translatedText") ;;
    ret (success_envelope translatedText source_lang target_lang)
  else
    responseDetails <- py_get data (lit "responseDetails")
                         (PStr (lit "Translation failed")) ;;
    ret (failure_envelope responseDetails).

(** The body of the [try] of [translate_text]. *)
Definition translate_text_try (rt : Runtime)
    (text source_lang target_lang : pyval) : Py pyval :=
  data <- fetch_payload rt text source_lang target_lang ;;
  read_payload data source_lang target_lang.

(** The two [except] clauses, tried in order. *)
Definition translate_text_except (rt : Runtime) (e : exn) : Py pyval :=
  if is_RequestException e
  then ret (failure_envelope (PStr (lit "Network error: " ++ exn_str rt e)))
  else ret (failure_envelope (PStr (lit "Translation error: " ++ exn_str rt e))).

Definition translate_text (rt : Runtime)
    (text source_lang target_lang : pyval) : Py pyval :=
  try_except (translate_text_try rt text source_lang target_lang)
             (translate_text_except rt).

Definition get_supported_languages : list (pystr * pyval) :=
  map (fun kv : string * string => (lit (fst kv), PStr (lit (snd kv))))
    [("auto", "Auto-detect");
     ("en", "English");
     ("hi", "Hindi");
     ("bn", "Bengali");
     ("gu", "Gujarati");
     ("ml", "Malayalam");
     ("mr", "Marathi");
     ("ta", "Tamil");
     ("te", "Telugu");
     ("es", "Spanish");
     ("fr", "French");
     ("de", "German");
     ("it", "Italian");
     ("pt", "Portuguese");
     ("ru", "Russian");
     ("ja", "Japanese");
     ("ko", "Korean");
     ("zh", "Chinese (Simplified)");
     ("zh-tw", "Chinese (Traditional)");
     ("ar", "Arabic");
     ("th", "Thai");
     ("vi", "Vietnamese");
     ("nl", "Dutch");
     ("sv", "Swedish");
     ("no", "Norwegian");
     ("da", "Danish");
     ("fi", "Finnish");
     ("pl", "Polish");
     ("el", "Greek");
     ("ro", "Romanian")]%string.

(** ** Flask routes *)

(** A response of the application: the status line and the object that
    [jsonify] serialises. *)
Record HttpResponse : Type := {
  status : Z;
  body : pyval
}.

(** [jsonify(v)]: a JSON response with the default status. *)
Definition jsonify (v : pyval) : HttpResponse := {| status := 200; body := v |}.

(** [return response, code] *)
Definition with_status (r : HttpResponse) (code : Z) : HttpResponse :=
  {| status := code; body := body r |}.

(** [jsonify({'success': False, 'error': msg})] for a literal [msg] *)
Definition rejection (msg : string) : HttpResponse :=
  jsonify (failure_envelope (PStr (lit msg))).

(** The request, as the handler reads it: what [request.get_json()]
    returns or raises. *)
Record Request : Type := {
  get_json : result pyval
}.

(** Lines 129 to 134: the language check, then the gateway. *)
Definition translate_languages (rt : Runtime) (text : pystr)
    (source_lang target_lang : pyval) : Py HttpResponse :=
  if py_eq source_lang target_lang && py_ne source_lang (PStr (lit "auto")) then
    ret (jsonify (failure_envelope
                    (PStr (lit "Source and target languages cannot be the same"))))
  else
    emit (CallTranslateText (PStr text) source_lang target_lang) ;;;
    result <- translate_text rt (PStr text) source_lang target_lang ;;
    ret (jsonify result).

(** The body of the [try] of [translate]. *)
Definition translate_try (rt : Runtime) (request : Request) : Py HttpResponse :=
  data <- lift (get_json request) ;;
  no_text <- (if negb (py_truthy data) then ret true
              else present <- py_contains (lit "text") data ;;
                   ret (negb present)) ;;
  if no_text then
    ret (jsonify (failure_envelope (PStr (lit "No text provided"))))
  else
    raw <- py_getitem data (lit "text") ;;
    text <- py_strip raw ;;
    source_lang <- py_get data (lit "source_lang") (PStr (lit "auto")) ;;
    target_lang <- py_get data (lit "target_lang") (PStr (lit "en")) ;;
    if negb (py_truthy (PStr text)) then
      ret (jsonify (failure_envelope
                      (PStr (lit "Please enter text to translate"))))
    else if (len text >? 5000)%Z then
      ret (jsonify (failure_envelope
                      (PStr (lit "Text too long (max 5000 characters)"))))
    else translate_languages rt text source_lang target_lang.

Definition translate_except (rt : Runtime) (e : exn) : Py HttpResponse :=
  ret (jsonify (failure_envelope (PStr (lit "Server error: " ++ exn_str rt e)))).

(** [POST /translate] *)
Definition translate (rt : Runtime) (request : Request) : Py HttpResponse :=
  try_except (translate_try rt request) (translate_except rt).

(** [GET /languages] *)
Definition get_languages : Py HttpResponse :=
  ret (jsonify (PDict get_supported_languages)).

(** [@app.errorhandler(404)] *)
Definition not_found (error : exn) : Py HttpResponse :=
  ret (with_status (jsonify (failure_envelope (PStr (lit "Endpoint not found"))))
                   404).

(** [@app.errorhandler(500)] *)
Definition internal_error (error : exn) : Py HttpResponse :=
  ret (with_status
         (jsonify (failure_envelope (PStr (lit "Internal server error")))) 500).

(** ** Worked inputs *)

(** A runtime for worked examples: every GET is answered by [reply];
    [str()] and the exception messages are cut down to the type and the
    class name. *)
Definition exn_class (e : exn) : string :=
  match e with
  | RequestException _ => "RequestException"
  | AttributeError _ _ => "AttributeError"
  | KeyError _ => "KeyError"
  | TypeError _ => "TypeError"
  | UnicodeEncodeError _ _ => "UnicodeEncodeError"
  | ValueError _ => "ValueError"
  | HTTPException _ => "HTTPException"
  | OtherException c _ => c
  end.

Definition canned_runtime (reply : result Response) : Runtime :=
  {| str_of := fun v => lit (type_name v);
     exn_str := fun e => lit (exn_class e);
     requests_get := fun _ => reply |}.

Definition hello : pyval := PStr (lit "hello").
Definition en : pyval := PStr (lit "en").
Definition fr : pyval := PStr (lit "fr").

(** The provider answers [status] with the parsed body [data]. *)
Definition provider_answers (status : Z) (data : pyval) : Runtime :=
  canned_runtime (Return {| status_code := status; json := Return data |}).

(** [{"responseStatus": 200}] *)
Definition payload_status_only : pyval :=
  PDict [(lit "responseStatus", PInt 200)].

(** [{"responseStatus": 200,
      "responseData": {"translatedText": "bonjour", "source_lang": "de"}}] *)
Definition payload_bonjour : pyval :=
  PDict [(lit "responseStatus", PInt 200);
         (lit "responseData",
          PDict [(lit "translatedText", PStr (lit "bonjour"));
                 (lit "source_lang", PStr (lit "de"))])].

(** The same with the status written [200.0], that is [25 * 2^3]. *)
Definition payload_bonjour_float : pyval :=
  PDict [(lit "responseStatus", PFloat (S754_finite false 25 3));
         (lit "responseData",
          PDict [(lit "translatedText", PStr (lit "bonjour"))])].

(** [{"responseStatus": 200, "responseData": {}}] *)
Definition payload_no_text : pyval :=
  PDict [(lit "responseStatus", PInt 200); (lit "responseData", PDict [])].

(** [{"responseStatus": 403,
      "responseDetails": "Source and target languages cannot be the same"}] *)
Definition payload_refusal : pyval :=
  PDict [(lit "responseStatus", PInt 403);
         (lit "responseDetails",
          PStr (lit "Source and target languages cannot be the same"))].

Definition auto_detect : pyval := PStr (lit "auto").

(** A request whose body parses to [data]. *)
Definition json_request (data : pyval) : Request := {| get_json := Return data |}.

(** [{"text": text, "source_lang": source_lang, "target_lang": target_lang}] *)
Definition request_body (text source_lang target_lang : pyval) : pyval :=
  PDict [(lit "text", text);
         (lit "source_lang", source_lang);
         (lit "target_lang", target_lang)].

(** Space, tab, ideographic space, line feed. *)
Definition blank : pystr := [0x20; 0x09; 0x3000; 0x0A]%N.

(** The Japanese greeting, five hiragana. *)
Definition konnichiwa : pystr := [0x3053; 0x3093; 0x306B; 0x3061; 0x306F]%N.

(** [n] times the letter [a]. *)
Definition letters (n : N) : pystr := repeat 0x61%N (N.to_nat n).

(** The body is not JSON: [response.json()] raises
    [requests.JSONDecodeError], which is a [RequestException]. *)
Definition provider_garbles : Runtime :=
  canned_runtime
    (Return {| status_code := 200;
               json := Raise (RequestException InvalidJSONError) |}).

(** ** Vocabulary of the statements *)

Definition is_get (ev : event) : bool :=
  match ev with
  | HttpGet _ => true
  | CallTranslateText _ _ _ => false
  end.

Definition is_call (ev : event) : bool :=
  match ev with
  | CallTranslateText _ _ _ => true
  | HttpGet _ => false
  end.

(** The characters [quote] lets through or produces: the safe ones and the
    percent sign of an escape. *)
Definition url_safe (c : N) : bool := (is_safe c || (c =? percent))%N.

(** The two shapes of the JSON envelope. *)
Definition is_envelope (source_lang target_lang v : pyval) : Prop :=
  (exists translated_text,
      v = success_envelope translated_text source_lang target_lang)
  \/ (exists error, v = failure_envelope error).

(** [{"text": text}] *)
Definition text_only_body (text : pyval) : pyval := PDict [(lit "text", text)].

(** Every GET fails with [e]. *)
Definition provider_unreachable (e : exn) : Runtime := canned_runtime (Raise e).

(** [{"responseStatus": 403, "responseDetails": "INVALID LANGUAGE PAIR"}] *)
Definition payload_invalid_pair : pyval :=
  PDict [(lit "responseStatus", PInt 403);
         (lit "responseDetails", PStr (lit "INVALID LANGUAGE PAIR"))].

(** * Properties *)

(** ** The computation monad *)

Lemma outcome_bind (A B : Type) (c : Py A) (k : A -> Py B) :
  outcome (bind c k) =
  match outcome c with
  | Return a => outcome (k a)
  | Raise e => Raise e
  end.
Proof.
  destruct c as [t [a | e]]; simpl; [destruct (k a) |]; reflexivity.
Qed.

Lemma trace_bind (A B : Type) (c : Py A) (k : A -> Py B) :
  trace (bind c k) =
  trace c ++ match outcome c with
             | Return a => trace (k a)
             | Raise _ => []
             end.
Proof.
  destruct c as [t [a | e]]; simpl; [destruct (k a) | rewrite app_nil_r];
    reflexivity.
Qed.

Lemma outcome_try_except (A : Type) (c : Py A) (h : exn -> Py A) :
  outcome (try_except c h) =
  match outcome c with
  | Return a => Return a
  | Raise e => outcome (h e)
  end.
Proof.
  destruct c as [t [a | e]]; simpl; [| destruct (h e)]; reflexivity.
Qed.

Lemma trace_try_except (A : Type) (c : Py A) (h : exn -> Py A) :
  trace (try_except c h) =
  trace c ++ match outcome c with
             | Return _ => []
             | Raise e => trace (h e)
             end.
Proof.
  destruct c as [t [a | e]]; simpl; [rewrite app_nil_r | destruct (h e)];
    reflexivity.
Qed.

Lemma bind_ret (A B : Type) (a : A) (k : A -> Py B) : bind (ret a) k = k a.
Proof. unfold bind, ret. destruct (k a). reflexivity. Qed.

Lemma bind_raise (A B : Type) (e : exn) (k : A -> Py B) :
  bind (raise e) k = raise e.
Proof. reflexivity. Qed.

Lemma try_except_returns (A : Type) (c : Py A) (h : exn -> Py A) (a : A) :
  outcome c = Return a -> try_except c h = c.
Proof. destruct c as [t [x | e]]; simpl; [reflexivity | discriminate]. Qed.

Lemma Py_eta (A : Type) (c : Py A) : c = (trace c, outcome c).
Proof. destruct c; reflexivity. Qed.

(** ** The gateway *)

Lemma translate_text_except_returns (rt : Runtime) (e : exn) :
  translate_text_except rt e =
  ret (failure_envelope
         (PStr (lit (if is_RequestException e then "Network error: "
                     else "Translation error: ") ++ exn_str rt e))).
Proof.
  unfold translate_text_except. destruct (is_RequestException e); reflexivity.
Qed.

(** [translate_text] returns a dictionary on every input: whatever the
    [try] raises is turned into an envelope. *)
Lemma translate_text_returns (rt : Runtime) (text source_lang target_lang : pyval) :
  exists d, outcome (translate_text rt text source_lang target_lang) = Return d.
Proof.
  unfold translate_text. rewrite outcome_try_except.
  destruct (outcome (translate_text_try rt text source_lang target_lang))
    as [d | e].
  - now exists d.
  - rewrite translate_text_except_returns. eexists. reflexivity.
Qed.

(** A [RequestException] leaving the [try] is reported as a network error. *)
Lemma translate_text_network_error (rt : Runtime)
    (text source_lang target_lang : pyval) (f : request_failure) :
  outcome (translate_text_try rt text source_lang target_lang)
    = Raise (RequestException f) ->
  outcome (translate_text rt text source_lang target_lang)
    = Return (failure_envelope
                (PStr (lit "Network error: "
                         ++ exn_str rt (RequestException f)))).
Proof.
  intros H. unfold translate_text. rewrite outcome_try_except, H. reflexivity.
Qed.

(** X11: when the GET itself fails with a [RequestException] (timeout, DNS
    failure, refused connection) the gateway answers ["Network error: "]
    followed by the message of the exception. *)
Lemma translate_text_get_fails (rt : Runtime) (s q : pystr)
    (source_lang target_lang : pyval) (f : request_failure) :
  quote_str s = Return q ->
  requests_get rt (make_url rt q source_lang target_lang)
    = Raise (RequestException f) ->
  outcome (translate_text rt (PStr s) source_lang target_lang)
    = Return (failure_envelope
                (PStr (lit "Network error: "
                         ++ exn_str rt (RequestException f)))).
Proof.
  intros Hq Hget. apply translate_text_network_error.
  unfold translate_text_try, fetch_payload, quote, lift.
  rewrite Hq. cbn. rewrite Hget. reflexivity.
Qed.

(** X12: a response with a client or server error status (400 to 599) is
    not read: the gateway answers ["Network error: "] with the [HTTPError]
    of that status. *)
Lemma translate_text_error_status (rt : Runtime) (s q : pystr)
    (source_lang target_lang : pyval) (r : Response) :
  quote_str s = Return q ->
  requests_get rt (make_url rt q source_lang target_lang) = Return r ->
  (400 <= status_code r < 600)%Z ->
  outcome (translate_text rt (PStr s) source_lang target_lang)
    = Return (failure_envelope
                (PStr (lit "Network error: "
                         ++ exn_str rt
                              (RequestException (HTTPError (status_code r)))))).
Proof.
  intros Hq Hget Hs. apply translate_text_network_error.
  unfold translate_text_try, fetch_payload, quote, lift.
  rewrite Hq. cbn. rewrite Hget. unfold raise_for_status.
  replace ((400 <=? status_code r)%Z && (status_code r <? 600)%Z) with true
    by (symmetry; apply andb_true_iff; split;
        [apply Z.leb_le | apply Z.ltb_lt]; lia).
  reflexivity.
Qed.

(** C1, as stated, fails: a payload whose [responseStatus] is 200 and that
    has no [responseData] does not give a Success envelope; the [KeyError]
    of line 38 is caught and reported as a translation error. *)
Lemma status_200_without_responseData :
  outcome (fetch_payload (provider_answers 200 payload_status_only) hello en fr)
    = Return payload_status_only
  /\ outcome (py_get payload_status_only (lit "responseStatus") PNone)
     = Return (PInt 200)
  /\ py_eq (PInt 200) (PInt 200) = true
  /\ outcome (translate_text (provider_answers 200 payload_status_only)
                 hello en fr)
     = Return (failure_envelope
                 (PStr (lit "Translation error: "
                          ++ exn_str (provider_answers 200 payload_status_only)
                               (KeyError (lit "responseData"))))).
Proof. repeat split. Qed.

(** C1, amended: when the provider's parsed response has [responseStatus]
    equal to 200 and [data['responseData']['translatedText']] can be read,
    [translate_text] returns the Success envelope with that text, and its
    [source_lang] and [target_lang] are the caller's arguments, whatever
    else the payload carries. *)
Theorem translate_text_success_echoes_request (rt : Runtime)
    (text source_lang target_lang data responseStatus translatedText : pyval) :
  outcome (fetch_payload rt text source_lang target_lang) = Return data ->
  outcome (py_get data (lit "responseStatus") PNone) = Return responseStatus ->
  py_eq responseStatus (PInt 200) = true ->
  outcome (responseData <- py_getitem data (lit "responseData") ;;
           py_getitem responseData (lit "translatedText"))
    = Return translatedText ->
  let envelope := success_envelope translatedText source_lang target_lang in
  outcome (translate_text rt text source_lang target_lang) = Return envelope
  /\ py_getitem envelope (lit "success") = ret (PBool true)
  /\ py_getitem envelope (lit "translated_text") = ret translatedText
  /\ py_getitem envelope (lit "source_lang") = ret source_lang
  /\ py_getitem envelope (lit "target_lang") = ret target_lang.
Proof.
  intros Hfetch Hstatus H200 Htext envelope.
  split; [| repeat split].
  unfold translate_text, translate_text_try.
  rewrite outcome_try_except, outcome_bind, Hfetch.
  unfold read_payload. rewrite outcome_bind, Hstatus, H200.
  rewrite outcome_bind in Htext |- *.
  destruct (outcome (py_getitem data (lit "responseData"))) as [rd | e];
    [| discriminate].
  rewrite outcome_bind.
  destruct (outcome (py_getitem rd (lit "translatedText"))) as [t | e];
    [| discriminate].
  injection Htext as ->. reflexivity.
Qed.

(** The provider reports other languages than the ones asked for; the
    envelope carries the ones asked for. *)
Lemma translate_text_success_echoes_request_witness :
  outcome (translate_text (provider_answers 200 payload_bonjour) hello en fr)
    = Return (success_envelope (PStr (lit "bonjour")) en fr).
Proof.
  apply (@translate_text_success_echoes_request
           (provider_answers 200 payload_bonjour) hello en fr payload_bonjour
           (PInt 200) (PStr (lit "bonjour")));
    reflexivity.
Defined.

(** [200.0 == 200]: a status written as a float is a success as well. *)
Example translate_text_float_status :
  outcome (translate_text (provider_answers 200 payload_bonjour_float)
             hello en fr)
  = Return (success_envelope (PStr (lit "bonjour")) en fr).
Proof. reflexivity. Qed.

(** C4, as stated, fails on its own example: a body that cannot be parsed
    as JSON makes [response.json()] raise [requests.JSONDecodeError], a
    [RequestException], so the first [except] clause answers
    ["Network error: "], not ["Translation error: "]. *)
Lemma invalid_json_is_network_error :
  requests_get provider_garbles
    (make_url provider_garbles (lit "hello") en fr)
  = Return {| status_code := 200;
              json := Raise (RequestException InvalidJSONError) |}
  /\ outcome (translate_text provider_garbles hello en fr)
     = Return (failure_envelope
                 (PStr (lit "Network error: "
                          ++ exn_str provider_garbles
                               (RequestException InvalidJSONError))))
  /\ forall m : pystr,
       outcome (translate_text provider_garbles hello en fr)
       <> Return (failure_envelope (PStr (lit "Translation error: " ++ m))).
Proof.
  repeat split. intros m H. discriminate H.
Qed.

(** C4, amended: [translate_text] never lets an exception out.  An
    exception of the [try] that is not a [RequestException] (a payload
    without [responseData] or [translatedText], a payload that is not an
    object, a text that cannot be encoded) comes back as a Failure envelope
    whose error starts with ["Translation error: "]; a [RequestException],
    the [requests.JSONDecodeError] of a body that is not JSON included,
    comes back with ["Network error: "]. *)
Theorem translate_text_catches_unexpected (rt : Runtime)
    (text source_lang target_lang : pyval) :
  (exists d, translate_text rt text source_lang target_lang
             = (trace (translate_text_try rt text source_lang target_lang),
                Return d))
  /\ (forall e : exn,
        outcome (translate_text_try rt text source_lang target_lang) = Raise e ->
        is_RequestException e = false ->
        outcome (translate_text rt text source_lang target_lang)
        = Return (failure_envelope
                    (PStr (lit "Translation error: " ++ exn_str rt e))))
  /\ (forall e : exn,
        outcome (translate_text_try rt text source_lang target_lang) = Raise e ->
        is_RequestException e = true ->
        outcome (translate_text rt text source_lang target_lang)
        = Return (failure_envelope
                    (PStr (lit "Network error: " ++ exn_str rt e)))).
Proof.
  split; [| split].
  - rewrite (Py_eta (translate_text _ _ _ _)).
    unfold translate_text. rewrite trace_try_except, outcome_try_except.
    destruct (outcome (translate_text_try rt text source_lang target_lang))
      as [d | e].
    + exists d. now rewrite app_nil_r.
    + rewrite translate_text_except_returns. simpl. rewrite app_nil_r.
      eexists. reflexivity.
  - intros e Hraise Hclass.
    unfold translate_text. rewrite outcome_try_except, Hraise.
    unfold translate_text_except. rewrite Hclass. reflexivity.
  - intros e Hraise Hclass.
    unfold translate_text. rewrite outcome_try_except, Hraise.
    unfold translate_text_except. rewrite Hclass. reflexivity.
Qed.

(** A success payload without [translatedText], a text with a lone
    surrogate, and a body that is not JSON. *)
Lemma translate_text_catches_unexpected_witness :
  outcome (translate_text (provider_answers 200 payload_no_text) hello en fr)
  = Return (failure_envelope
              (PStr (lit "Translation error: "
                       ++ exn_str (provider_answers 200 payload_no_text)
                            (KeyError (lit "translatedText")))))
  /\ outcome (translate_text (provider_answers 200 payload_bonjour)
                 (PStr [0xD800%N]) en fr)
     = Return (failure_envelope
                 (PStr (lit "Translation error: "
                          ++ exn_str (provider_answers 200 payload_bonjour)
                               (UnicodeEncodeError 0 0xD800))))
  /\ outcome (translate_text provider_garbles hello en fr)
     = Return (failure_envelope
                 (PStr (lit "Network error: "
                          ++ exn_str provider_garbles
                               (RequestException InvalidJSONError)))).
Proof.
  split; [| split].
  - apply (proj1 (proj2 (translate_text_catches_unexpected
                           (provider_answers 200 payload_no_text)
                           hello en fr))); reflexivity.
  - apply (proj1 (proj2 (translate_text_catches_unexpected
                           (provider_answers 200 payload_bonjour)
                           (PStr [0xD800%N]) en fr))); reflexivity.
  - apply (proj2 (proj2 (translate_text_catches_unexpected
                           provider_garbles hello en fr))); reflexivity.
Defined.

(** X13: when the payload is an object whose [responseStatus] is not 200
    (or is missing), the gateway answers with a Failure envelope carrying
    the payload's [responseDetails] as it is, or ["Translation failed"]
    when there is none. *)
Lemma translate_text_provider_failure (rt : Runtime)
    (text source_lang target_lang : pyval) (d : list (pystr * pyval)) :
  outcome (fetch_payload rt text source_lang target_lang) = Return (PDict d) ->
  py_eq (dict_get d (lit "responseStatus") PNone) (PInt 200) = false ->
  outcome (translate_text rt text source_lang target_lang)
  = Return (failure_envelope
              (dict_get d (lit "responseDetails")
                 (PStr (lit "Translation failed")))).
Proof.
  intros Hfetch Hstatus. unfold translate_text, translate_text_try.
  rewrite outcome_try_except, outcome_bind, Hfetch.
  unfold read_payload, py_get. now rewrite bind_ret, Hstatus, bind_ret.
Qed.

(** C5, at the input where the code departs from it: the provider answers
    with status 300 and a JSON body.  [raise_for_status] lets every status
    below 400 through, so the body is read and a Success envelope comes
    back, not a network error. *)
Theorem translate_text_status_300_not_refused :
  raise_for_status {| status_code := 300; json := Return payload_bonjour |}
    = ret tt
  /\ outcome (translate_text (provider_answers 300 payload_bonjour) hello en fr)
     = Return (success_envelope (PStr (lit "bonjour")) en fr).
Proof. split; reflexivity. Qed.

(** ** The [/translate] handler *)

Lemma str_falsy (s : pystr) : py_truthy (PStr s) = false <-> s = [].
Proof.
  unfold py_truthy, len. destruct s; simpl; split; intros H;
    try reflexivity; try discriminate.
Qed.

Lemma pystr_eqb_refl (s : pystr) : pystr_eqb s s = true.
Proof.
  induction s as [| c s IH]; simpl; [reflexivity |].
  now rewrite N.eqb_refl.
Qed.

(** Once the body is a dictionary with a string under ['text'], lines 118
    to 123 pass and the three checks decide. *)
Lemma translate_try_with_text (rt : Runtime) (request : Request)
    (d : list (pystr * pyval)) (raw : pystr) :
  get_json request = Return (PDict d) ->
  dict_lookup (lit "text") d = Some (PStr raw) ->
  translate_try rt request =
  if negb (py_truthy (PStr (strip raw))) then
    ret (rejection "Please enter text to translate")
  else if (len (strip raw) >? 5000)%Z then
    ret (rejection "Text too long (max 5000 characters)")
  else translate_languages rt (strip raw)
         (dict_get d (lit "source_lang") (PStr (lit "auto")))
         (dict_get d (lit "target_lang") (PStr (lit "en"))).
Proof.
  intros Hjson Htext. unfold translate_try. rewrite Hjson.
  unfold lift. fold (ret (PDict d)). rewrite bind_ret.
  assert (Htruthy : py_truthy (PDict d) = true)
    by (destruct d; [discriminate | reflexivity]).
  rewrite Htruthy. simpl negb. cbv iota.
  unfold py_contains, py_getitem. rewrite Htext, !bind_ret.
  simpl negb. cbv iota.
  unfold py_strip, py_get. rewrite !bind_ret. reflexivity.
Qed.

(** The language check lets the request through to the gateway exactly
    when it does not reject it. *)
Lemma translate_languages_proceeds (rt : Runtime) (text : pystr)
    (source_lang target_lang : pyval) :
  py_eq source_lang target_lang && py_ne source_lang (PStr (lit "auto")) = false ->
  exists result,
    outcome (translate_text rt (PStr text) source_lang target_lang)
      = Return result
    /\ translate_languages rt text source_lang target_lang
       = (CallTranslateText (PStr text) source_lang target_lang
            :: trace (translate_text rt (PStr text) source_lang target_lang),
          Return (jsonify result)).
Proof.
  intros Hcheck. unfold translate_languages. rewrite Hcheck.
  destruct (translate_text_returns rt (PStr text) source_lang target_lang)
    as [result Hres].
  exists result. split; [exact Hres |].
  destruct (translate_text rt (PStr text) source_lang target_lang) as [t r].
  simpl in Hres. subst r. simpl. now rewrite app_nil_r.
Qed.

Lemma translate_languages_rejects (rt : Runtime) (text : pystr)
    (source_lang target_lang : pyval) :
  py_eq source_lang target_lang && py_ne source_lang (PStr (lit "auto")) = true ->
  translate_languages rt text source_lang target_lang
  = ret (rejection "Source and target languages cannot be the same").
Proof. intros Hcheck. unfold translate_languages. now rewrite Hcheck. Qed.

Lemma translate_languages_returns (rt : Runtime) (text : pystr)
    (source_lang target_lang : pyval) :
  exists v, outcome (translate_languages rt text source_lang target_lang)
            = Return (jsonify v).
Proof.
  destruct (py_eq source_lang target_lang
            && py_ne source_lang (PStr (lit "auto"))) eqn:Hcheck.
  - rewrite translate_languages_rejects by assumption. eexists. reflexivity.
  - destruct (translate_languages_proceeds rt text _ _ Hcheck)
      as (result & _ & ->).
    now exists result.
Qed.

(** With a text of 1 to 5000 characters the first two checks pass. *)
Lemma translate_try_passes_checks (rt : Runtime) (request : Request)
    (d : list (pystr * pyval)) (raw : pystr) :
  get_json request = Return (PDict d) ->
  dict_lookup (lit "text") d = Some (PStr raw) ->
  (0 < len (strip raw) <= 5000)%Z ->
  translate_try rt request
  = translate_languages rt (strip raw)
      (dict_get d (lit "source_lang") (PStr (lit "auto")))
      (dict_get d (lit "target_lang") (PStr (lit "en"))).
Proof.
  intros Hjson Htext Hlen.
  rewrite (translate_try_with_text rt _ Hjson Htext).
  destruct (py_truthy (PStr (strip raw))) eqn:Ht.
  - simpl negb. cbv iota.
    replace (len (strip raw) >? 5000)%Z with false
      by (symmetry; rewrite Z.gtb_ltb; apply Z.ltb_ge; lia).
    reflexivity.
  - apply str_falsy in Ht. rewrite Ht in Hlen. cbv in Hlen.
    destruct Hlen as [Hlen _]. discriminate Hlen.
Qed.

Lemma translate_of_try_languages (rt : Runtime) (request : Request)
    (text : pystr) (source_lang target_lang : pyval) :
  translate_try rt request
  = translate_languages rt text source_lang target_lang ->
  translate rt request = translate_languages rt text source_lang target_lang.
Proof.
  intros H. unfold translate. rewrite H.
  destruct (translate_languages_returns rt text source_lang target_lang)
    as [v Hv].
  exact (try_except_returns _ _ Hv).
Qed.

(** *** What [strip] removes *)

Lemma lstrip_nil_iff (s : pystr) : lstrip s = [] <-> forallb isspace s = true.
Proof.
  induction s as [| c s IH]; simpl; [tauto |].
  destruct (isspace c); simpl; [exact IH |].
  split; discriminate.
Qed.

Lemma lstrip_head (s r : pystr) (c : N) : lstrip s = c :: r -> isspace c = false.
Proof.
  induction s as [| x s IH]; simpl; [discriminate |].
  destruct (isspace x) eqn:Hx; [exact IH |].
  intros [= -> _]. exact Hx.
Qed.

Lemma forallb_rev (A : Type) (p : A -> bool) (l : list A) :
  forallb p (rev l) = forallb p l.
Proof.
  induction l as [| a l IH]; simpl; [reflexivity |].
  rewrite forallb_app, IH. simpl. rewrite andb_true_r. apply andb_comm.
Qed.

(** [s.strip()] is empty exactly when [s] is empty or all whitespace. *)
Lemma strip_nil_iff (s : pystr) : strip s = [] <-> forallb isspace s = true.
Proof.
  unfold strip, rstrip. split.
  - intros H. apply (f_equal (@rev N)) in H. rewrite rev_involutive in H.
    simpl in H. apply lstrip_nil_iff in H. rewrite forallb_rev in H.
    destruct (lstrip s) as [| c r] eqn:Hs; [now apply lstrip_nil_iff |].
    apply lstrip_head in Hs. simpl in H. rewrite Hs in H. discriminate.
  - intros H. apply lstrip_nil_iff in H. rewrite H. reflexivity.
Qed.

(** *** The three checks *)

(** C6: a body whose ['text'] strips to the empty string (empty, or
    whitespace only) is answered ["Please enter text to translate"], and
    the empty trace shows that neither [translate_text] nor the provider
    was called. *)
Theorem translate_blank_text_rejected (rt : Runtime) (request : Request)
    (d : list (pystr * pyval)) (raw : pystr) :
  get_json request = Return (PDict d) ->
  dict_lookup (lit "text") d = Some (PStr raw) ->
  strip raw = [] ->
  translate rt request
  = ([], Return (rejection "Please enter text to translate")).
Proof.
  intros Hjson Htext Hblank. unfold translate.
  rewrite (translate_try_with_text rt _ Hjson Htext), Hblank.
  reflexivity.
Qed.

(** C3: the bound is on the stripped text and is inclusive.  More than
    5000 characters (5001 among them) are refused before any call; from 1
    to 5000 characters (5000 among them) the length check passes and the
    handler goes on to the language check. *)
Theorem translate_length_bound (rt : Runtime) (request : Request)
    (d : list (pystr * pyval)) (raw : pystr) :
  get_json request = Return (PDict d) ->
  dict_lookup (lit "text") d = Some (PStr raw) ->
  ((5000 < len (strip raw))%Z ->
   translate rt request
   = ([], Return (rejection "Text too long (max 5000 characters)")))
  /\ ((0 < len (strip raw) <= 5000)%Z ->
      translate rt request
      = translate_languages rt (strip raw)
          (dict_get d (lit "source_lang") (PStr (lit "auto")))
          (dict_get d (lit "target_lang") (PStr (lit "en")))).
Proof.
  intros Hjson Htext.
  assert (Htruthy : (0 < len (strip raw))%Z ->
                    negb (py_truthy (PStr (strip raw))) = false).
  { intros Hpos. destruct (py_truthy (PStr (strip raw))) eqn:Ht;
      [reflexivity |].
    apply str_falsy in Ht. rewrite Ht in Hpos. cbv in Hpos. discriminate. }
  unfold translate.
  rewrite (translate_try_with_text rt _ Hjson Htext).
  split; intros Hlen.
  - rewrite Htruthy by lia.
    replace (len (strip raw) >? 5000)%Z with true
      by (symmetry; rewrite Z.gtb_ltb; apply Z.ltb_lt; lia).
    reflexivity.
  - rewrite Htruthy by lia.
    replace (len (strip raw) >? 5000)%Z with false
      by (symmetry; rewrite Z.gtb_ltb; apply Z.ltb_ge; lia).
    destruct (translate_languages_returns rt (strip raw)
                (dict_get d (lit "source_lang") (PStr (lit "auto")))
                (dict_get d (lit "target_lang") (PStr (lit "en")))) as [v Hv].
    exact (try_except_returns _ _ Hv).
Qed.

Lemma translate_blank_text_rejected_witness :
  translate (provider_answers 200 payload_bonjour)
            (json_request (request_body (PStr blank) en fr))
  = ([], Return (rejection "Please enter text to translate")).
Proof.
  apply (@translate_blank_text_rejected
           (provider_answers 200 payload_bonjour)
           (json_request (request_body (PStr blank) en fr))
           _ blank eq_refl eq_refl).
  reflexivity.
Defined.

Lemma translate_length_bound_witness :
  translate (provider_answers 200 payload_bonjour)
            (json_request (request_body (PStr (letters 5001)) en fr))
  = ([], Return (rejection "Text too long (max 5000 characters)"))
  /\ translate (provider_answers 200 payload_bonjour)
               (json_request (request_body (PStr (letters 5000)) en fr))
     = translate_languages (provider_answers 200 payload_bonjour)
         (strip (letters 5000)) en fr.
Proof.
  split.
  - apply (proj1 (@translate_length_bound
                    (provider_answers 200 payload_bonjour)
                    (json_request (request_body (PStr (letters 5001)) en fr))
                    _ (letters 5001) eq_refl eq_refl)).
    now vm_compute.
  - apply (proj2 (@translate_length_bound
                    (provider_answers 200 payload_bonjour)
                    (json_request (request_body (PStr (letters 5000)) en fr))
                    _ (letters 5000) eq_refl eq_refl)).
    split; now vm_compute.
Defined.

(** C2, as stated, fails in the "only if" direction: the gateway hands on
    the provider's [responseDetails], so the same envelope comes back for
    two different languages when the provider words its refusal so. *)
Lemma same_language_message_from_provider :
  py_eq en fr = false
  /\ outcome (translate (provider_answers 200 payload_refusal)
                        (json_request (request_body hello en fr)))
     = Return (rejection "Source and target languages cannot be the same").
Proof. split; reflexivity. Qed.

(** C2, amended: for a text of 1 to 5000 characters the handler rejects the
    request at the language check (it answers ["Source and target
    languages cannot be the same"] and calls nothing) if and only if
    [source_lang == target_lang] and [source_lang != 'auto']; otherwise,
    and so when both are ['auto'], it calls [translate_text] and answers
    with its result. *)
Theorem translate_same_language_check (rt : Runtime) (request : Request)
    (d : list (pystr * pyval)) (raw : pystr) :
  get_json request = Return (PDict d) ->
  dict_lookup (lit "text") d = Some (PStr raw) ->
  (0 < len (strip raw) <= 5000)%Z ->
  let source_lang := dict_get d (lit "source_lang") (PStr (lit "auto")) in
  let target_lang := dict_get d (lit "target_lang") (PStr (lit "en")) in
  let same := py_eq source_lang target_lang = true
              /\ py_ne source_lang (PStr (lit "auto")) = true in
  (translate rt request
   = ([], Return (rejection "Source and target languages cannot be the same"))
   <-> same)
  /\ (~ same ->
      exists result,
        outcome (translate_text rt (PStr (strip raw)) source_lang target_lang)
        = Return result
        /\ translate rt request
           = (CallTranslateText (PStr (strip raw)) source_lang target_lang
                :: trace (translate_text rt (PStr (strip raw))
                            source_lang target_lang),
              Return (jsonify result))).
Proof.
  intros Hjson Htext Hlen source_lang target_lang same.
  rewrite (translate_of_try_languages _ _ _ _ _
             (translate_try_passes_checks rt _ Hjson Htext Hlen)).
  fold source_lang target_lang.
  assert (Hproceeds : ~ same ->
            py_eq source_lang target_lang
            && py_ne source_lang (PStr (lit "auto")) = false).
  { intros Hn. apply not_true_is_false. intros Hc. apply Hn.
    now apply andb_true_iff. }
  split; [split |].
  - intros Hrej.
    destruct (py_eq source_lang target_lang
              && py_ne source_lang (PStr (lit "auto"))) eqn:Hcheck;
      [now apply andb_true_iff |].
    destruct (translate_languages_proceeds rt (strip raw) _ _ Hcheck)
      as (result & _ & Hcall).
    rewrite Hcall in Hrej. discriminate.
  - intros Hsame. apply translate_languages_rejects.
    now apply andb_true_iff.
  - intros Hn. exact (translate_languages_proceeds rt (strip raw) _ _
                        (Hproceeds Hn)).
Qed.

(** ['en'] to ['en'] is rejected; ['auto'] to ['auto'] reaches the
    gateway. *)
Lemma translate_same_language_check_witness :
  translate (provider_answers 200 payload_bonjour)
            (json_request (request_body hello en en))
  = ([], Return (rejection "Source and target languages cannot be the same"))
  /\ exists result,
       translate (provider_answers 200 payload_bonjour)
                 (json_request (request_body hello auto_detect auto_detect))
       = (CallTranslateText hello auto_detect auto_detect
            :: trace (translate_text (provider_answers 200 payload_bonjour)
                        hello auto_detect auto_detect),
          Return (jsonify result)).
Proof.
  assert (Hlen : (0 < len (strip (lit "hello")) <= 5000)%Z)
    by (split; now vm_compute).
  split.
  - apply (proj1 (@translate_same_language_check
                    (provider_answers 200 payload_bonjour)
                    (json_request (request_body hello en en))
                    _ (lit "hello") eq_refl eq_refl Hlen)).
    split; reflexivity.
  - destruct (proj2 (@translate_same_language_check
                       (provider_answers 200 payload_bonjour)
                       (json_request (request_body hello auto_detect auto_detect))
                       _ (lit "hello") eq_refl eq_refl Hlen))
      as (result & _ & Hcall).
    + intros [_ Hne]. discriminate Hne.
    + exists result. exact Hcall.
Defined.

(** *** Faults and status codes *)

(** One statement of a [try] body: look at what it yields. *)
Ltac py_step H :=
  match type of H with
  | outcome (bind ?c _) = _ =>
      rewrite outcome_bind in H;
      let r := fresh "r" in
      let E := fresh "E" in
      destruct (outcome c) as [r | ?] eqn:E; [| discriminate H]
  | outcome (if ?b then _ else _) = _ =>
      let E := fresh "E" in destruct b eqn:E
  end.

(** Every value the [try] of [translate] returns was built by [jsonify]. *)
Lemma translate_try_returns_jsonify (rt : Runtime) (request : Request)
    (r : HttpResponse) :
  outcome (translate_try rt request) = Return r -> exists v, r = jsonify v.
Proof.
  intros H. unfold translate_try in H.
  do 3 py_step H.
  - injection H as <-. eexists. reflexivity.
  - do 5 py_step H; [| py_step H].
    + injection H as <-. eexists. reflexivity.
    + injection H as <-. eexists. reflexivity.
    + destruct (translate_languages_returns rt r3 r4 r5) as [v Hv].
      rewrite Hv in H. injection H as <-. now exists v.
Qed.

(** C9: whatever the body of the handler raises is caught and answered
    with ["Server error: "] followed by the message; a ['text'] that is not
    a string (a number, [null], a list, an object) raises at [.strip()] and
    is answered so, before any call, and the answer is none of the four
    validation messages. *)
Theorem translate_server_error (rt : Runtime) (request : Request) :
  (forall e : exn,
     outcome (translate_try rt request) = Raise e ->
     outcome (translate rt request)
     = Return (jsonify (failure_envelope
                          (PStr (lit "Server error: " ++ exn_str rt e)))))
  /\ (forall (d : list (pystr * pyval)) (v : pyval),
        get_json request = Return (PDict d) ->
        dict_lookup (lit "text") d = Some v ->
        (forall s, v <> PStr s) ->
        translate rt request
        = ([], Return (jsonify
                         (failure_envelope
                            (PStr (lit "Server error: "
                                     ++ exn_str rt
                                          (AttributeError (type_name v) "strip")))))))
  /\ (forall (m : pystr) (msg : string),
        In msg ["No text provided"; "Please enter text to translate";
                "Text too long (max 5000 characters)";
                "Source and target languages cannot be the same"]%string ->
        jsonify (failure_envelope (PStr (lit "Server error: " ++ m)))
        <> rejection msg).
Proof.
  split; [| split].
  - intros e Hraise. unfold translate.
    rewrite outcome_try_except, Hraise. reflexivity.
  - intros d v Hjson Htext Hv. unfold translate, translate_try.
    rewrite Hjson. unfold lift. fold (ret (PDict d)). rewrite bind_ret.
    assert (Htruthy : py_truthy (PDict d) = true)
      by (destruct d; [discriminate | reflexivity]).
    rewrite Htruthy. simpl negb. cbv iota.
    unfold py_contains, py_getitem. rewrite Htext, !bind_ret.
    simpl negb. cbv iota.
    destruct v; try reflexivity. now elim (Hv s).
  - intros m msg Hin Heq. unfold rejection in Heq.
    simpl in Hin.
    destruct Hin as [<- | [<- | [<- | [<- | []]]]]; discriminate Heq.
Qed.

(** [{"text": 5}]: [int] has no [strip]. *)
Lemma translate_server_error_witness :
  translate (provider_answers 200 payload_bonjour)
            (json_request (request_body (PInt 5) en fr))
  = ([], Return (jsonify
                   (failure_envelope
                      (PStr (lit "Server error: "
                               ++ exn_str (provider_answers 200 payload_bonjour)
                                    (AttributeError "int" "strip")))))).
Proof.
  apply (proj1 (proj2 (translate_server_error
                         (provider_answers 200 payload_bonjour)
                         (json_request (request_body (PInt 5) en fr))))
           _ (PInt 5) eq_refl eq_refl).
  intros s. discriminate.
Defined.

(** C10: every response of the [/translate] handler carries status 200,
    whether it reports a translation, a validation failure, a gateway
    failure or a caught fault; of the handlers of the application only
    [not_found] and [internal_error] answer with another status, 404 and
    500. *)
Theorem translate_status_200 (rt : Runtime) (request : Request) :
  (exists v, outcome (translate rt request) = Return (jsonify v)
             /\ status (jsonify v) = 200%Z)
  /\ (exists r, get_languages = ret r /\ status r = 200%Z)
  /\ (forall e, exists r, not_found e = ret r /\ status r = 404%Z)
  /\ (forall e, exists r, internal_error e = ret r /\ status r = 500%Z).
Proof.
  split; [| repeat split; eexists; split; reflexivity].
  unfold translate. rewrite outcome_try_except.
  destruct (outcome (translate_try rt request)) as [r | e] eqn:Htry.
  - destruct (translate_try_returns_jsonify rt request Htry) as [v ->].
    exists v. split; reflexivity.
  - eexists. split; reflexivity.
Qed.

(** A body that Flask refuses (415 from [get_json]) is still answered
    with status 200. *)
Example translate_unsupported_media_type :
  translate (provider_answers 200 payload_bonjour)
            {| get_json := Raise (HTTPException 415) |}
  = ([], Return (jsonify
                   (failure_envelope
                      (PStr (lit "Server error: "
                               ++ exn_str (provider_answers 200 payload_bonjour)
                                    (HTTPException 415)))))).
Proof. reflexivity. Qed.

(** ** The catalog *)

Lemma NoDup_by_nodup (l : list pystr) :
  nodup (list_eq_dec N.eq_dec) l = l -> NoDup l.
Proof. intros <-. apply NoDup_nodup. Qed.

(** C8: [/languages] answers with the catalog itself, an object whose keys
    are the 30 codes of [get_supported_languages], each once, ['auto']
    among them; the catalog is a constant, the same at every call. *)
Theorem get_languages_catalog :
  get_languages = ([], Return (jsonify (PDict get_supported_languages)))
  /\ dict_keys get_supported_languages
     = map lit ["auto"; "en"; "hi"; "bn"; "gu"; "ml"; "mr"; "ta"; "te"; "es";
                "fr"; "de"; "it"; "pt"; "ru"; "ja"; "ko"; "zh"; "zh-tw"; "ar";
                "th"; "vi"; "nl"; "sv"; "no"; "da"; "fi"; "pl"; "el"; "ro"]%string
  /\ List.length (dict_keys get_supported_languages) = 30%nat
  /\ NoDup (dict_keys get_supported_languages)
  /\ In (lit "auto") (dict_keys get_supported_languages).
Proof.
  repeat split.
  - apply NoDup_by_nodup. vm_compute. reflexivity.
  - left. reflexivity.
Qed.

(** ** URL encoding *)

Local Open Scope N_scope.

(** *** Bit operations of the encoder, as arithmetic *)

Lemma lor_add (hi x k : N) :
  x < 2 ^ k -> N.land hi (N.ones k) = 0 -> N.lor hi x = hi + x.
Proof.
  intros Hx Hhi.
  assert (Hland : N.land hi x = 0).
  { rewrite <- (N.mod_small x (2 ^ k)) by exact Hx.
    rewrite <- N.land_ones, (N.land_comm x), N.land_assoc, Hhi.
    apply N.land_0_l. }
  rewrite <- N.lxor_lor by exact Hland.
  symmetry. now apply N.add_nocarry_lxor.
Qed.

Lemma shiftr_6 (c : N) : N.shiftr c 6 = c / 64.
Proof. apply (N.shiftr_div_pow2 c 6). Qed.

Lemma shiftr_12 (c : N) : N.shiftr c 12 = c / 64 / 64.
Proof.
  change 12 with (6 + 6). now rewrite <- N.shiftr_shiftr, !shiftr_6.
Qed.

Lemma shiftr_18 (c : N) : N.shiftr c 18 = c / 64 / 64 / 64.
Proof.
  change 18 with (12 + 6). now rewrite <- N.shiftr_shiftr, shiftr_12, shiftr_6.
Qed.

Lemma continuation_byte (x : N) : N.lor 0x80 (N.land x 0x3F) = 0x80 + x mod 64.
Proof.
  change 0x3F with (N.ones 6). rewrite N.land_ones.
  apply (@lor_add 0x80 (x mod 2 ^ 6) 6); [| reflexivity].
  now apply N.mod_lt.
Qed.

(** The sextets of a code point and what ties them together. *)
Ltac sextets c :=
  pose proof (N.div_mod c 64);
  pose proof (N.mod_lt c 64);
  pose proof (N.div_mod (c / 64) 64);
  pose proof (N.mod_lt (c / 64) 64);
  pose proof (N.div_mod (c / 64 / 64) 64);
  pose proof (N.mod_lt (c / 64 / 64) 64);
  generalize dependent (c / 64 / 64 / 64);
  generalize dependent ((c / 64 / 64) mod 64);
  generalize dependent (c / 64 / 64);
  generalize dependent ((c / 64) mod 64);
  generalize dependent (c mod 64);
  generalize dependent (c / 64);
  intros.

Lemma utf8_encode_char_2 (c : N) :
  0x80 <= c < 0x800 ->
  utf8_encode_char c = Some [0xC0 + c / 64; 0x80 + c mod 64].
Proof.
  intros H. unfold utf8_encode_char.
  destruct (N.ltb_spec c 0x80); [lia |].
  destruct (N.ltb_spec c 0x800); [| lia].
  rewrite continuation_byte, shiftr_6.
  rewrite (@lor_add 0xC0 (c / 64) 5); [reflexivity | | reflexivity].
  change (2 ^ 5) with 32. sextets c. lia.
Qed.

Lemma utf8_encode_char_3 (c : N) :
  0x800 <= c < 0x10000 -> is_surrogate c = false ->
  utf8_encode_char c
  = Some [0xE0 + c / 64 / 64; 0x80 + (c / 64) mod 64; 0x80 + c mod 64].
Proof.
  intros H Hs. unfold utf8_encode_char. rewrite Hs.
  destruct (N.ltb_spec c 0x80); [lia |].
  destruct (N.ltb_spec c 0x800); [lia |].
  destruct (N.ltb_spec c 0x10000); [| lia].
  rewrite !continuation_byte, shiftr_12, shiftr_6.
  rewrite (@lor_add 0xE0 (c / 64 / 64) 4); [reflexivity | | reflexivity].
  change (2 ^ 4) with 16. sextets c. lia.
Qed.

Lemma utf8_encode_char_4 (c : N) :
  0x10000 <= c < 0x110000 ->
  utf8_encode_char c
  = Some [0xF0 + c / 64 / 64 / 64; 0x80 + (c / 64 / 64) mod 64;
          0x80 + (c / 64) mod 64; 0x80 + c mod 64].
Proof.
  intros H. unfold utf8_encode_char.
  assert (Hs : is_surrogate c = false).
  { unfold is_surrogate. destruct (N.leb_spec c 0xDFFF); [lia |].
    apply andb_false_r. }
  rewrite Hs.
  destruct (N.ltb_spec c 0x80); [lia |].
  destruct (N.ltb_spec c 0x800); [lia |].
  destruct (N.ltb_spec c 0x10000); [lia |].
  rewrite !continuation_byte, shiftr_18, shiftr_12, shiftr_6.
  rewrite (@lor_add 0xF0 (c / 64 / 64 / 64) 3); [reflexivity | | reflexivity].
  change (2 ^ 3) with 8. sextets c. lia.
Qed.

(** *** The decoder on well-formed sequences *)

(** Settle the comparisons of a goal by arithmetic. *)
Ltac decide_tests :=
  repeat match goal with
         | |- context [?a <? ?b] =>
             destruct (N.ltb_spec a b); try lia; cbn [andb orb negb]
         | |- context [?a <=? ?b] =>
             destruct (N.leb_spec a b); try lia; cbn [andb orb negb]
         end.

Lemma utf8_decode_1 (b1 : N) (r : list N) :
  b1 < 0x80 -> utf8_decode (b1 :: r) = option_map (cons b1) (utf8_decode r).
Proof. intros H. simpl. decide_tests. reflexivity. Qed.

Lemma utf8_decode_2 (b1 b2 : N) (r : list N) :
  0xC2 <= b1 <= 0xDF -> 0x80 <= b2 <= 0xBF ->
  utf8_decode (b1 :: b2 :: r)
  = option_map (cons ((b1 - 0xC0) * 64 + (b2 - 0x80))) (utf8_decode r).
Proof.
  intros H1 H2. simpl. unfold is_continuation. decide_tests. reflexivity.
Qed.

Lemma utf8_decode_3 (b1 b2 b3 c : N) (r : list N) :
  0xE0 <= b1 <= 0xEF -> 0x80 <= b2 <= 0xBF -> 0x80 <= b3 <= 0xBF ->
  c = (b1 - 0xE0) * 4096 + (b2 - 0x80) * 64 + (b3 - 0x80) ->
  0x800 <= c -> is_surrogate c = false ->
  utf8_decode (b1 :: b2 :: b3 :: r) = option_map (cons c) (utf8_decode r).
Proof.
  intros H1 H2 H3 Hc Hmin Hs. simpl. rewrite <- Hc, Hs.
  unfold is_continuation. decide_tests. reflexivity.
Qed.

Lemma utf8_decode_4 (b1 b2 b3 b4 c : N) (r : list N) :
  0xF0 <= b1 <= 0xF4 -> 0x80 <= b2 <= 0xBF -> 0x80 <= b3 <= 0xBF ->
  0x80 <= b4 <= 0xBF ->
  c = (b1 - 0xF0) * 262144 + (b2 - 0x80) * 4096 + (b3 - 0x80) * 64
      + (b4 - 0x80) ->
  0x10000 <= c <= 0x10FFFF ->
  utf8_decode (b1 :: b2 :: b3 :: b4 :: r) = option_map (cons c) (utf8_decode r).
Proof.
  intros H1 H2 H3 H4 Hc Hrange. simpl. rewrite <- Hc.
  unfold is_continuation. decide_tests. reflexivity.
Qed.

(** Every scalar value has an encoding, made of bytes, that decodes to it. *)
Lemma utf8_encode_char_decodes (c : N) :
  is_scalar c = true ->
  exists bs,
    utf8_encode_char c = Some bs
    /\ Forall is_byte bs
    /\ forall r, utf8_decode (bs ++ r) = option_map (cons c) (utf8_decode r).
Proof.
  unfold is_scalar. intros H. apply andb_true_iff in H as [Hmax Hs].
  apply N.ltb_lt in Hmax. apply negb_true_iff in Hs.
  destruct (N.lt_ge_cases c 0x80) as [H1 | H1];
    [| destruct (N.lt_ge_cases c 0x800) as [H2 | H2];
       [| destruct (N.lt_ge_cases c 0x10000) as [H3 | H3]]].
  - exists [c]. unfold utf8_encode_char, is_byte.
    destruct (N.ltb_spec c 0x80); [| lia].
    repeat split.
    + repeat constructor. lia.
    + intros r. now apply utf8_decode_1.
  - eexists. rewrite utf8_encode_char_2 by lia. unfold is_byte.
    repeat split.
    + repeat constructor; sextets c; lia.
    + intros r. cbn [app]. rewrite utf8_decode_2; [f_equal; f_equal | |];
        sextets c; lia.
  - eexists. rewrite utf8_encode_char_3 by (assumption || lia). unfold is_byte.
    repeat split.
    + repeat constructor; sextets c; lia.
    + intros r. cbn [app].
      apply utf8_decode_3; try assumption; sextets c; lia.
  - eexists. rewrite utf8_encode_char_4 by lia. unfold is_byte.
    repeat split.
    + repeat constructor; sextets c; lia.
    + intros r. cbn [app].
      apply utf8_decode_4; sextets c; lia.
Qed.

(** [encode] succeeds on a string of scalar values, whatever the index it
    starts from, and [utf8_decode] reads the string back. *)
Lemma utf8_encode_decodes (s : pystr) (pos : nat) :
  forallb is_scalar s = true ->
  exists bs,
    utf8_encode_from pos s = Return bs
    /\ Forall is_byte bs
    /\ utf8_decode bs = Some s.
Proof.
  revert pos. induction s as [| c s IH]; intros pos Hs.
  - exists []. repeat split. constructor.
  - simpl in Hs. apply andb_true_iff in Hs as [Hc Hs].
    destruct (utf8_encode_char_decodes c Hc) as (bc & Hbc & Hbytes & Hdec).
    destruct (IH (S pos) Hs) as (bs & Hbs & Hbytes' & Hdec').
    exists (bc ++ bs). simpl. rewrite Hbc, Hbs. repeat split.
    + now apply Forall_app.
    + now rewrite Hdec, Hdec'.
Qed.

(** *** Percent-encoding *)

Lemma hex_value_digit (n : N) : n < 16 -> hex_value (hex_digit n) = Some n.
Proof.
  intros H. unfold hex_value, hex_digit.
  destruct (N.ltb_spec n 10); decide_tests; f_equal; lia.
Qed.

Lemma percent_not_safe (b : N) : is_safe b = true -> (b =? percent) = false.
Proof.
  intros H. destruct (N.eqb_spec b percent) as [-> |]; [discriminate | reflexivity].
Qed.

Lemma percent_decode_quoter (b : N) (r : pystr) :
  is_byte b -> percent_decode (quoter b ++ r) = b :: percent_decode r.
Proof.
  unfold is_byte, quoter. intros Hb. destruct (is_safe b) eqn:Hsafe.
  - simpl. now rewrite (percent_not_safe b Hsafe).
  - assert (Hhi : b / 16 < 16) by (apply N.Div0.div_lt_upper_bound; lia).
    assert (Hlo : b mod 16 < 16) by (now apply N.mod_lt).
    cbn [app percent_decode]. rewrite N.eqb_refl.
    rewrite (hex_value_digit Hhi), (hex_value_digit Hlo).
    f_equal. symmetry. now apply N.div_mod.
Qed.

Lemma percent_decode_quote_from_bytes (bs : list N) :
  Forall is_byte bs -> percent_decode (quote_from_bytes bs) = bs.
Proof.
  unfold quote_from_bytes. induction 1 as [| b bs Hb _ IH]; [reflexivity |].
  cbn [flat_map]. now rewrite percent_decode_quoter, IH.
Qed.

(** *** What reaches the provider *)

Lemma trace_py_get (v : pyval) (key : pystr) (default : pyval) :
  trace (py_get v key default) = [].
Proof. destruct v; reflexivity. Qed.

Lemma trace_py_getitem (v : pyval) (key : pystr) : trace (py_getitem v key) = [].
Proof.
  destruct v; try reflexivity. simpl. now destruct (dict_lookup key d).
Qed.

Lemma trace_read_payload (data source_lang target_lang : pyval) :
  trace (read_payload data source_lang target_lang) = [].
Proof.
  unfold read_payload. rewrite trace_bind, trace_py_get. simpl.
  destruct (outcome (py_get data (lit "responseStatus") PNone)) as [st | e];
    [| reflexivity].
  destruct (py_eq st (PInt 200)).
  - rewrite trace_bind, trace_py_getitem. simpl.
    destruct (outcome (py_getitem data (lit "responseData"))) as [rd | e];
      [| reflexivity].
    rewrite trace_bind, trace_py_getitem. simpl.
    now destruct (outcome (py_getitem rd (lit "translatedText"))).
  - rewrite trace_bind, trace_py_get. simpl.
    now destruct (outcome (py_get data (lit "responseDetails")
                             (PStr (lit "Translation failed")))).
Qed.

(** The gateway sends exactly one GET, for the URL built from the encoded
    text, whenever the text can be encoded. *)
Lemma trace_translate_text (rt : Runtime) (s q : pystr)
    (source_lang target_lang : pyval) :
  quote_str s = Return q ->
  trace (translate_text rt (PStr s) source_lang target_lang)
  = [HttpGet (make_url rt q source_lang target_lang)].
Proof.
  intros Hq. unfold translate_text.
  rewrite trace_try_except.
  assert (Hhandler :
            match outcome (translate_text_try rt (PStr s) source_lang target_lang)
            with
            | Return _ => []
            | Raise e => trace (translate_text_except rt e)
            end = []).
  { destruct (outcome _); [reflexivity |].
    now rewrite translate_text_except_returns. }
  rewrite Hhandler, app_nil_r.
  unfold translate_text_try. rewrite trace_bind.
  assert (Hfetch : trace (fetch_payload rt (PStr s) source_lang target_lang)
                   = [HttpGet (make_url rt q source_lang target_lang)]).
  { unfold fetch_payload, quote. rewrite Hq.
    unfold lift at 1. fold (ret q). rewrite bind_ret.
    rewrite trace_bind. simpl.
    destruct (requests_get rt (make_url rt q source_lang target_lang))
      as [response | e]; [| reflexivity].
    simpl. unfold raise_for_status.
    now destruct ((400 <=? status_code response)%Z
                  && (status_code response <? 600)%Z). }
  rewrite Hfetch.
  destruct (outcome (fetch_payload rt (PStr s) source_lang target_lang));
    [now rewrite trace_read_payload | reflexivity].
Qed.

(** C7, as stated, fails: a Python string may hold a lone surrogate (the
    JSON body ["\ud800"] parses to one), [quote] raises on it, and
    [translate_text] answers with a translation error without sending
    anything. *)
Lemma quote_lone_surrogate_raises :
  Forall code_point [0xD800]
  /\ quote_str [0xD800] = Raise (UnicodeEncodeError 0 0xD800)
  /\ translate_text (provider_answers 200 payload_bonjour) (PStr [0xD800]) en fr
     = ([], Return (failure_envelope
                      (PStr (lit "Translation error: "
                               ++ exn_str (provider_answers 200 payload_bonjour)
                                    (UnicodeEncodeError 0 0xD800))))).
Proof. repeat split. repeat constructor. Qed.

(** C7, amended: for every string of Unicode scalar values (code points
    that are not surrogates), non-ASCII ones included, [quote] succeeds,
    URL-decoding its result gives the string back, and the GET that
    [translate_text] sends carries exactly that encoding. *)
Theorem quote_round_trip (s : pystr) :
  forallb is_scalar s = true ->
  exists q,
    quote_str s = Return q
    /\ url_decode q = Some s
    /\ forall (rt : Runtime) (source_lang target_lang : pyval),
         trace (translate_text rt (PStr s) source_lang target_lang)
         = [HttpGet (make_url rt q source_lang target_lang)].
Proof.
  intros Hs.
  assert (Hq : exists q, quote_str s = Return q /\ url_decode q = Some s).
  { destruct s as [| c s']; [now exists [] |].
    destruct (utf8_encode_decodes (c :: s') 0 Hs) as (bs & Henc & Hbytes & Hdec).
    exists (quote_from_bytes bs). unfold quote_str, utf8_encode, url_decode.
    rewrite Henc. split; [reflexivity |].
    now rewrite percent_decode_quote_from_bytes. }
  destruct Hq as (q & Hq & Hdec). exists q. repeat split; try assumption.
  intros rt source_lang target_lang. now apply trace_translate_text.
Qed.

Lemma quote_round_trip_witness :
  exists q, quote_str konnichiwa = Return q /\ url_decode q = Some konnichiwa.
Proof.
  destruct (@quote_round_trip konnichiwa eq_refl) as (q & Hq & Hdec & _).
  exists q. split; assumption.
Defined.

Example quote_konnichiwa :
  quote_str konnichiwa
  = Return (lit "%E3%81%93%E3%82%93%E3%81%AB%E3%81%A1%E3%81%AF").
Proof. reflexivity. Qed.

(** * Further properties of the handler and the gateway *)

Local Open Scope Z_scope.

(** ** The handler, case by case *)

Lemma trace_translate (rt : Runtime) (request : Request) :
  trace (translate rt request) = trace (translate_try rt request).
Proof.
  unfold translate. rewrite trace_try_except.
  destruct (outcome (translate_try rt request)); simpl; apply app_nil_r.
Qed.

Lemma translate_of_return (rt : Runtime) (request : Request)
    (t : list event) (r : HttpResponse) :
  translate_try rt request = (t, Return r) -> translate rt request = (t, Return r).
Proof. intros H. unfold translate. now rewrite H. Qed.


Lemma translate_try_body (rt : Runtime) (request : Request) (data : pyval) :
  get_json request = Return data ->
  translate_try rt request =
  (no_text <- (if negb (py_truthy data) then ret true
               else present <- py_contains (lit "text") data ;;
                    ret (negb present)) ;;
   if no_text then
     ret (jsonify (failure_envelope (PStr (lit "No text provided"))))
   else
     raw <- py_getitem data (lit "text") ;;
     text <- py_strip raw ;;
     source_lang <- py_get data (lit "source_lang") (PStr (lit "auto")) ;;
     target_lang <- py_get data (lit "target_lang") (PStr (lit "en")) ;;
     if negb (py_truthy (PStr text)) then
       ret (jsonify (failure_envelope
                       (PStr (lit "Please enter text to translate"))))
     else if len text >? 5000 then
       ret (jsonify (failure_envelope
                       (PStr (lit "Text too long (max 5000 characters)"))))
     else translate_languages rt text source_lang target_lang).
Proof.
  intros Hjson. unfold translate_try. rewrite Hjson.
  unfold lift. fold (ret data). now rewrite bind_ret.
Qed.

Lemma translate_try_no_text (rt : Runtime) (request : Request) (data : pyval) :
  get_json request = Return data ->
  py_truthy data = false
  \/ (exists d, data = PDict d /\ dict_lookup (lit "text") d = None) ->
  translate_try rt request = ([], Return (rejection "No text provided")).
Proof.
  intros Hjson Hcase. rewrite (translate_try_body rt _ Hjson).
  destruct (py_truthy data) eqn:Htruthy.
  - destruct Hcase as [Hfalse | (d & -> & Hkey)]; [discriminate |].
    simpl negb. cbv iota. unfold py_contains. rewrite Hkey.
    now rewrite !bind_ret.
  - simpl negb. cbv iota. now rewrite bind_ret.
Qed.

Lemma translate_try_not_object (rt : Runtime) (request : Request)
    (data : pyval) :
  get_json request = Return data ->
  (forall d, data <> PDict d) ->
  translate_try rt request = ([], Return (rejection "No text provided"))
  \/ exists msg : string, translate_try rt request = ([], Raise (TypeError msg)).
Proof.
  intros Hjson Hshape.
  assert (Hbody := translate_try_body rt _ Hjson).
  destruct (py_truthy data) eqn:Htruthy;
    [| left; apply (translate_try_no_text rt _ Hjson); now left].
  simpl negb in Hbody. cbv iota in Hbody.
  destruct data as [| b | z | f | s | l | d]; try discriminate Htruthy.
  - right. eexists. rewrite Hbody. reflexivity.
  - right. eexists. rewrite Hbody. reflexivity.
  - right. eexists. rewrite Hbody. reflexivity.
  - unfold py_contains in Hbody. rewrite !bind_ret in Hbody.
    destruct (str_contains s (lit "text")).
    + right. eexists. rewrite Hbody. reflexivity.
    + left. rewrite Hbody. reflexivity.
  - unfold py_contains in Hbody. rewrite !bind_ret in Hbody.
    destruct (existsb (fun x => py_eq x (PStr (lit "text"))) l).
    + right. eexists. rewrite Hbody. reflexivity.
    + left. rewrite Hbody. reflexivity.
  - now elim (Hshape d).
Qed.

Lemma translate_try_text_not_string (rt : Runtime) (request : Request)
    (d : list (pystr * pyval)) (v : pyval) :
  get_json request = Return (PDict d) ->
  dict_lookup (lit "text") d = Some v ->
  (forall s, v <> PStr s) ->
  translate_try rt request
  = ([], Raise (AttributeError (type_name v) "strip")).
Proof.
  intros Hjson Htext Hv. rewrite (translate_try_body rt _ Hjson).
  assert (Htruthy : py_truthy (PDict d) = true)
    by (destruct d; [discriminate | reflexivity]).
  rewrite Htruthy. simpl negb. cbv iota.
  unfold py_contains, py_getitem. rewrite Htext, !bind_ret.
  simpl negb. cbv iota.
  destruct v; try reflexivity. now elim (Hv s).
Qed.

(** X1: a body that is falsy ([null], [{}], [[]], [""], [0], [false]) or
    an object without the key ['text'] is answered ["No text provided"],
    and nothing is called. *)
Theorem translate_no_text (rt : Runtime) (request : Request) (data : pyval) :
  get_json request = Return data ->
  py_truthy data = false
  \/ (exists d, data = PDict d /\ dict_lookup (lit "text") d = None) ->
  translate rt request = ([], Return (rejection "No text provided")).
Proof.
  intros Hjson Hcase. apply translate_of_return.
  now apply (translate_try_no_text rt _ Hjson).
Qed.

Lemma translate_no_text_witness :
  translate (provider_answers 200 payload_bonjour) (json_request (PDict []))
  = ([], Return (rejection "No text provided"))
  /\ translate (provider_answers 200 payload_bonjour)
               (json_request (PDict [(lit "source_lang", en)]))
     = ([], Return (rejection "No text provided")).
Proof.
  split.
  - apply (@translate_no_text (provider_answers 200 payload_bonjour)
             (json_request (PDict [])) (PDict []) eq_refl).
    left. reflexivity.
  - apply (@translate_no_text (provider_answers 200 payload_bonjour)
             (json_request (PDict [(lit "source_lang", en)]))
             (PDict [(lit "source_lang", en)]) eq_refl).
    right. eexists. split; reflexivity.
Defined.



(** X9: a body that is an object with a string under ['text'] never makes
    the handler itself fail: its [try] returns, so the ["Server error: "]
    clause is not taken. *)
Theorem translate_well_formed_returns (rt : Runtime) (request : Request)
    (d : list (pystr * pyval)) (raw : pystr) :
  get_json request = Return (PDict d) ->
  dict_lookup (lit "text") d = Some (PStr raw) ->
  exists v, outcome (translate_try rt request) = Return (jsonify v)
            /\ translate rt request = translate_try rt request.
Proof.
  intros Hjson Htext.
  assert (H : exists v, outcome (translate_try rt request) = Return (jsonify v)).
  { rewrite (translate_try_with_text rt _ Hjson Htext).
    destruct (negb (py_truthy (PStr (strip raw)))); [eexists; reflexivity |].
    destruct (len (strip raw) >? 5000); [eexists; reflexivity |].
    apply translate_languages_returns. }
  destruct H as [v Hv]. exists v. split; [exact Hv |].
  exact (try_except_returns _ _ Hv).
Qed.

Lemma translate_well_formed_returns_witness :
  exists v,
    outcome (translate_try (provider_unreachable (RequestException ReadTimeout))
               (json_request (request_body hello en fr)))
    = Return (jsonify v).
Proof.
  destruct (@translate_well_formed_returns
              (provider_unreachable (RequestException ReadTimeout))
              (json_request (request_body hello en fr))
              _ (lit "hello") eq_refl eq_refl) as (v & Hv & _).
  now exists v.
Defined.

(** X3: a request without ['source_lang'] is translated from ['auto'], and
    so is never stopped by the language check, whatever its target; a
    missing ['target_lang'] stands for ['en'].  The gateway receives the
    stripped text. *)
Theorem translate_default_source (rt : Runtime) (request : Request)
    (d : list (pystr * pyval)) (raw : pystr) :
  get_json request = Return (PDict d) ->
  dict_lookup (lit "text") d = Some (PStr raw) ->
  0 < len (strip raw) <= 5000 ->
  dict_lookup (lit "source_lang") d = None ->
  let target_lang := match dict_lookup (lit "target_lang") d with
                     | Some v => v
                     | None => PStr (lit "en")
                     end in
  exists result,
    outcome (translate_text rt (PStr (strip raw)) (PStr (lit "auto")) target_lang)
    = Return result
    /\ translate rt request
       = (CallTranslateText (PStr (strip raw)) (PStr (lit "auto")) target_lang
            :: trace (translate_text rt (PStr (strip raw)) (PStr (lit "auto"))
                        target_lang),
          Return (jsonify result)).
Proof.
  intros Hjson Htext Hlen Hsrc target_lang.
  assert (Htry := translate_try_passes_checks rt _ Hjson Htext Hlen).
  unfold dict_get in Htry. rewrite Hsrc in Htry. fold target_lang in Htry.
  rewrite (translate_of_try_languages _ _ _ _ _ Htry).
  apply translate_languages_proceeds.
  apply andb_false_iff. right. reflexivity.
Qed.

Lemma translate_default_source_witness :
  exists result,
    translate (provider_answers 200 payload_bonjour)
              (json_request (text_only_body hello))
    = (CallTranslateText hello auto_detect en
         :: trace (translate_text (provider_answers 200 payload_bonjour)
                     hello auto_detect en),
       Return (jsonify result)).
Proof.
  assert (Hlen : 0 < len (strip (lit "hello")) <= 5000)
    by (split; now vm_compute).
  destruct (@translate_default_source
              (provider_answers 200 payload_bonjour)
              (json_request (text_only_body hello))
              _ (lit "hello") eq_refl eq_refl Hlen eq_refl)
    as (result & _ & H).
  exists result. exact H.
Defined.

(** ** The gateway, case by case *)

Lemma utf8_encode_from_raises (s : pystr) (pos : nat) (e : exn) :
  utf8_encode_from pos s = Raise e -> exists n c, e = UnicodeEncodeError n c.
Proof.
  revert pos. induction s as [| c s IH]; intros pos; simpl; [discriminate |].
  destruct (utf8_encode_char c); [| intros [= <-]; now eexists _, _].
  destruct (utf8_encode_from (S pos) s) eqn:Hrest; [discriminate |].
  intros [= <-]. now apply (IH (S pos)).
Qed.

Lemma quote_raises (text : pyval) (e : exn) :
  outcome (quote text) = Raise e ->
  quote text = ([], Raise e) /\ is_RequestException e = false.
Proof.
  destruct text as [| b | z | f | s | l | d]; simpl;
    try (intros [= <-]; split; reflexivity).
  intros H. split; [unfold lift; now rewrite H |].
  unfold quote_str in H. destruct s as [| c s]; [discriminate |].
  unfold utf8_encode in H.
  destruct (utf8_encode_from 0 (c :: s)) as [bs | e'] eqn:Henc; [discriminate |].
  injection H as <-.
  destruct (utf8_encode_from_raises _ _ Henc) as (n & c' & ->). reflexivity.
Qed.

(** X15: when [quote] refuses the text (a value that is not a string, a
    string with a lone surrogate) the gateway answers ["Translation
    error: "] with that exception, and no request is sent. *)
Theorem translate_text_unquotable (rt : Runtime)
    (text source_lang target_lang : pyval) (e : exn) :
  outcome (quote text) = Raise e ->
  translate_text rt text source_lang target_lang
  = ([], Return (failure_envelope
                   (PStr (lit "Translation error: " ++ exn_str rt e)))).
Proof.
  intros H. destruct (quote_raises text H) as [Hq Hclass].
  unfold translate_text, translate_text_try, fetch_payload.
  rewrite Hq. cbn. unfold translate_text_except. now rewrite Hclass.
Qed.

Lemma translate_text_unquotable_witness :
  translate_text (provider_answers 200 payload_bonjour) (PInt 5) en fr
  = ([], Return (failure_envelope
                   (PStr (lit "Translation error: "
                            ++ exn_str (provider_answers 200 payload_bonjour)
                                 (TypeError "quote_from_bytes() expected bytes"))))).
Proof.
  apply (@translate_text_unquotable (provider_answers 200 payload_bonjour)
           (PInt 5) en fr (TypeError "quote_from_bytes() expected bytes")).
  reflexivity.
Defined.

(** The gateway sends nothing, or one GET. *)
Lemma translate_text_trace_shape (rt : Runtime)
    (text source_lang target_lang : pyval) :
  trace (translate_text rt text source_lang target_lang) = []
  \/ exists url, trace (translate_text rt text source_lang target_lang)
                 = [HttpGet url].
Proof.
  destruct (outcome (quote text)) as [q | e] eqn:Hq.
  - destruct text; try discriminate Hq. right. eexists.
    apply trace_translate_text. exact Hq.
  - left. destruct (quote_raises text Hq) as [Hraise Hclass].
    unfold translate_text, translate_text_try, fetch_payload.
    rewrite Hraise. cbn. unfold translate_text_except. now rewrite Hclass.
Qed.

Lemma read_payload_envelope (data source_lang target_lang v : pyval) :
  outcome (read_payload data source_lang target_lang) = Return v ->
  is_envelope source_lang target_lang v.
Proof.
  intros H. unfold read_payload in H. do 2 py_step H.
  - do 2 py_step H. injection H as <-. left. now eexists.
  - py_step H. injection H as <-. right. now eexists.
Qed.

Lemma translate_text_returns_envelope (rt : Runtime)
    (text source_lang target_lang : pyval) :
  exists v,
    outcome (translate_text rt text source_lang target_lang) = Return v
    /\ is_envelope source_lang target_lang v.
Proof.
  unfold translate_text. rewrite outcome_try_except.
  destruct (outcome (translate_text_try rt text source_lang target_lang))
    as [v | e] eqn:Htry.
  - exists v. split; [reflexivity |].
    unfold translate_text_try in Htry. py_step Htry.
    now apply read_payload_envelope in Htry.
  - rewrite translate_text_except_returns. eexists. split; [reflexivity |].
    right. now eexists.
Qed.

(** X17: whatever happens, the gateway returns one of the two envelopes,
    a Success envelope always carries the two languages it was called
    with, and at most one GET was sent on the way: nothing is retried. *)
Theorem translate_text_contract (rt : Runtime)
    (text source_lang target_lang : pyval) :
  exists v,
    outcome (translate_text rt text source_lang target_lang) = Return v
    /\ is_envelope source_lang target_lang v
    /\ (trace (translate_text rt text source_lang target_lang) = []
        \/ exists url, trace (translate_text rt text source_lang target_lang)
                       = [HttpGet url]).
Proof.
  destruct (translate_text_returns_envelope rt text source_lang target_lang)
    as (v & Hv & Henv).
  exists v. repeat split; try assumption. apply translate_text_trace_shape.
Qed.

(** X16: the gateway reports success exactly when the payload was
    fetched, its [responseStatus] equals 200 and
    [data['responseData']['translatedText']] could be read; the text it
    reports is that one. *)
Theorem translate_text_success_iff (rt : Runtime)
    (text source_lang target_lang translatedText : pyval) :
  outcome (translate_text rt text source_lang target_lang)
  = Return (success_envelope translatedText source_lang target_lang)
  <->
  exists data responseStatus,
    outcome (fetch_payload rt text source_lang target_lang) = Return data
    /\ outcome (py_get data (lit "responseStatus") PNone) = Return responseStatus
    /\ py_eq responseStatus (PInt 200) = true
    /\ outcome (responseData <- py_getitem data (lit "responseData") ;;
                py_getitem responseData (lit "translatedText"))
       = Return translatedText.
Proof.
  split.
  - intros H. unfold translate_text, translate_text_try in H.
    rewrite outcome_try_except, outcome_bind in H.
    destruct (outcome (fetch_payload rt text source_lang target_lang))
      as [data | e] eqn:Hfetch;
      [| rewrite translate_text_except_returns in H; discriminate H].
    unfold read_payload in H. rewrite outcome_bind in H.
    destruct (outcome (py_get data (lit "responseStatus") PNone))
      as [st | e] eqn:Hst;
      [| rewrite translate_text_except_returns in H; discriminate H].
    destruct (py_eq st (PInt 200)) eqn:H200.
    + exists data, st. split; [reflexivity |]. split; [exact Hst |].
      split; [exact H200 |]. rewrite outcome_bind in H |- *.
      destruct (outcome (py_getitem data (lit "responseData"))) as [rd | e];
        [| rewrite translate_text_except_returns in H; discriminate H].
      rewrite outcome_bind in H.
      destruct (outcome (py_getitem rd (lit "translatedText"))) as [t | e];
        [| rewrite translate_text_except_returns in H; discriminate H].
      simpl in H. unfold success_envelope in H. congruence.
    + exfalso. rewrite outcome_bind in H.
      destruct (outcome (py_get data (lit "responseDetails")
                           (PStr (lit "Translation failed")))) as [det | e];
        [discriminate H |].
      rewrite translate_text_except_returns in H. discriminate H.
  - intros (data & st & Hfetch & Hst & H200 & Htext).
    unfold translate_text, translate_text_try.
    rewrite outcome_try_except, outcome_bind, Hfetch.
    unfold read_payload. rewrite outcome_bind, Hst, H200.
    rewrite outcome_bind in Htext |- *.
    destruct (outcome (py_getitem data (lit "responseData"))) as [rd | e];
      [| discriminate].
    rewrite outcome_bind.
    destruct (outcome (py_getitem rd (lit "translatedText"))) as [t | e];
      [| discriminate].
    injection Htext as ->. reflexivity.
Qed.

(** X14: a payload that parses but is not an object (an array, a string, a
    number, [null]) has no [get]: the gateway answers ["Translation
    error: "] with the [AttributeError]. *)
Theorem translate_text_payload_not_object (rt : Runtime)
    (text source_lang target_lang data : pyval) :
  outcome (fetch_payload rt text source_lang target_lang) = Return data ->
  (forall d, data <> PDict d) ->
  outcome (translate_text rt text source_lang target_lang)
  = Return (failure_envelope
              (PStr (lit "Translation error: "
                       ++ exn_str rt (AttributeError (type_name data) "get")))).
Proof.
  intros Hfetch Hshape. unfold translate_text, translate_text_try.
  rewrite outcome_try_except, outcome_bind, Hfetch.
  destruct data; try reflexivity. now elim (Hshape d).
Qed.

Lemma translate_text_payload_not_object_witness :
  outcome (translate_text (provider_answers 200 (PList [])) hello en fr)
  = Return (failure_envelope
              (PStr (lit "Translation error: "
                       ++ exn_str (provider_answers 200 (PList []))
                            (AttributeError "list" "get")))).
Proof.
  apply (@translate_text_payload_not_object
           (provider_answers 200 (PList [])) hello en fr (PList []) eq_refl).
  intros d. discriminate.
Defined.

(** ** Language codes and whitespace *)

Lemma pystr_eqb_eq (s t : pystr) : pystr_eqb s t = true <-> s = t.
Proof.
  revert t. induction s as [| c s IH]; intros [| d t]; simpl;
    try (split; (reflexivity || discriminate)).
  rewrite andb_true_iff, N.eqb_eq, IH. split.
  - now intros [-> ->].
  - now intros [= -> ->].
Qed.

(** X8: when both languages are strings the check compares them character
    by character: the request is stopped there exactly when the two codes
    are the same string and that string is not ["auto"] (so ["EN"] and
    ["en"] are two languages). *)
Theorem translate_string_codes (rt : Runtime) (request : Request)
    (d : list (pystr * pyval)) (raw source target : pystr) :
  get_json request = Return (PDict d) ->
  dict_lookup (lit "text") d = Some (PStr raw) ->
  0 < len (strip raw) <= 5000 ->
  dict_get d (lit "source_lang") (PStr (lit "auto")) = PStr source ->
  dict_get d (lit "target_lang") (PStr (lit "en")) = PStr target ->
  translate rt request
  = ([], Return (rejection "Source and target languages cannot be the same"))
  <-> source = target /\ source <> lit "auto".
Proof.
  intros Hjson Htext Hlen Hsrc Htgt.
  assert (Htry := translate_try_passes_checks rt _ Hjson Htext Hlen).
  rewrite Hsrc, Htgt in Htry.
  rewrite (translate_of_try_languages _ _ _ _ _ Htry).
  assert (Hcheck : py_eq (PStr source) (PStr target)
                   && py_ne (PStr source) (PStr (lit "auto")) = true
                   <-> source = target /\ source <> lit "auto").
  { unfold py_ne. simpl py_eq.
    rewrite andb_true_iff, negb_true_iff, pystr_eqb_eq.
    rewrite <- not_true_iff_false, pystr_eqb_eq. reflexivity. }
  split.
  - intros Hrej. apply Hcheck.
    destruct (py_eq (PStr source) (PStr target)
              && py_ne (PStr source) (PStr (lit "auto"))) eqn:Hc;
      [reflexivity |].
    destruct (translate_languages_proceeds rt (strip raw) _ _ Hc)
      as (result & _ & Hcall).
    rewrite Hcall in Hrej. discriminate Hrej.
  - intros Hsame. apply translate_languages_rejects. now apply Hcheck.
Qed.

Lemma translate_string_codes_witness :
  translate (provider_answers 200 payload_bonjour)
            (json_request (request_body hello fr fr))
  = ([], Return (rejection "Source and target languages cannot be the same")).
Proof.
  assert (Hlen : 0 < len (strip (lit "hello")) <= 5000)
    by (split; now vm_compute).
  apply (proj2 (@translate_string_codes
                  (provider_answers 200 payload_bonjour)
                  (json_request (request_body hello fr fr))
                  _ (lit "hello") (lit "fr") (lit "fr")
                  eq_refl eq_refl Hlen eq_refl eq_refl)).
  split; [reflexivity | discriminate].
Defined.

Lemma lstrip_spaces (l s : pystr) :
  forallb isspace l = true -> lstrip (l ++ s) = lstrip s.
Proof.
  induction l as [| c l IH]; simpl; [reflexivity |].
  intros H. apply andb_true_iff in H as [-> H]. now apply IH.
Qed.

Lemma lstrip_app (s r : pystr) : lstrip s <> [] -> lstrip (s ++ r) = lstrip s ++ r.
Proof.
  induction s as [| c s IH]; simpl; [now intros [] |].
  destruct (isspace c); [exact IH | reflexivity].
Qed.

Lemma rstrip_spaces (s r : pystr) :
  forallb isspace r = true -> rstrip (s ++ r) = rstrip s.
Proof.
  intros H. unfold rstrip. rewrite rev_app_distr, lstrip_spaces;
    [reflexivity | now rewrite forallb_rev].
Qed.

(** Whitespace around a text does not survive [strip]. *)
Lemma strip_padding (l s r : pystr) :
  forallb isspace l = true -> forallb isspace r = true ->
  strip (l ++ s ++ r) = strip s.
Proof.
  intros Hl Hr. unfold strip. rewrite lstrip_spaces by exact Hl.
  destruct (lstrip s) as [| c s'] eqn:Hs.
  - apply lstrip_nil_iff in Hs.
    assert (Hall : forallb isspace (s ++ r) = true)
      by (rewrite forallb_app, Hs, Hr; reflexivity).
    apply lstrip_nil_iff in Hall. now rewrite Hall.
  - rewrite lstrip_app by (rewrite Hs; discriminate).
    rewrite Hs. now apply rstrip_spaces.
Qed.

Lemma lstrip_fixed (s : pystr) : lstrip (lstrip s) = lstrip s.
Proof.
  induction s as [| c s IH]; simpl; [reflexivity |].
  destruct (isspace c) eqn:Hc; [exact IH |]. simpl. now rewrite Hc.
Qed.

(** What [lstrip] leaves starts with the same character after [rstrip]. *)
Lemma lstrip_rstrip (s : pystr) : lstrip (rstrip (lstrip s)) = rstrip (lstrip s).
Proof.
  destruct (lstrip s) as [| c t] eqn:Hs; [reflexivity |].
  assert (Hc : isspace c = false) by (now apply lstrip_head in Hs).
  unfold rstrip.
  destruct (lstrip (rev (c :: t))) as [| x u] eqn:Hrev.
  - apply lstrip_nil_iff in Hrev. rewrite forallb_rev in Hrev.
    simpl in Hrev. rewrite Hc in Hrev. discriminate Hrev.
  - assert (Hx : isspace x = false) by (now apply lstrip_head in Hrev).
    assert (Hsuffix : exists pre, rev (c :: t) = pre ++ x :: u).
    { clear Hs Hc. revert Hrev. generalize (rev (c :: t)).
      induction l as [| y l IH]; simpl; [discriminate |].
      destruct (isspace y).
      - intros H. destruct (IH H) as [pre ->]. now exists (y :: pre).
      - intros [= -> ->]. now exists []. }
    destruct Hsuffix as [pre Hpre].
    apply (f_equal (@rev N)) in Hpre. rewrite rev_involutive in Hpre.
    rewrite rev_app_distr in Hpre. simpl in Hpre.
    destruct (rev u) as [| z w] eqn:Hu.
    + simpl in Hpre. injection Hpre as <- _.
      apply (f_equal (@rev N)) in Hu. rewrite rev_involutive in Hu.
      subst u. simpl. now rewrite Hc.
    + simpl in Hpre. injection Hpre as <- _.
      cbn [rev]. rewrite Hu. simpl. now rewrite Hc.
Qed.

Lemma strip_fixed (s : pystr) : strip (strip s) = strip s.
Proof.
  unfold strip at 1. rewrite (lstrip_rstrip s : lstrip (strip s) = strip s).
  unfold strip, rstrip. now rewrite rev_involutive, lstrip_fixed.
Qed.

(** X5: whitespace before and after the text changes nothing: the padded
    request gets the very response, and causes the very calls, of the
    request without the padding. *)
Theorem translate_padding (rt : Runtime) (request padded : Request)
    (d d' : list (pystr * pyval)) (raw l r : pystr) :
  get_json request = Return (PDict d) ->
  get_json padded = Return (PDict d') ->
  dict_lookup (lit "text") d = Some (PStr raw) ->
  dict_lookup (lit "text") d' = Some (PStr (l ++ raw ++ r)) ->
  dict_lookup (lit "source_lang") d' = dict_lookup (lit "source_lang") d ->
  dict_lookup (lit "target_lang") d' = dict_lookup (lit "target_lang") d ->
  forallb isspace l = true -> forallb isspace r = true ->
  translate rt padded = translate rt request.
Proof.
  intros Hjson Hjson' Htext Htext' Hsrc Htgt Hl Hr. unfold translate.
  rewrite (translate_try_with_text rt _ Hjson Htext).
  rewrite (translate_try_with_text rt _ Hjson' Htext').
  unfold dict_get. now rewrite Hsrc, Htgt, (@strip_padding l raw r Hl Hr).
Qed.

Lemma translate_padding_witness :
  translate (provider_answers 200 payload_bonjour)
            (json_request
               (request_body (PStr (blank ++ lit "hello" ++ blank)) en fr))
  = translate (provider_answers 200 payload_bonjour)
              (json_request (request_body hello en fr)).
Proof.
  apply (@translate_padding (provider_answers 200 payload_bonjour)
           (json_request (request_body hello en fr))
           (json_request
              (request_body (PStr (blank ++ lit "hello" ++ blank)) en fr))
           _ _ (lit "hello") blank blank
           eq_refl eq_refl eq_refl eq_refl eq_refl eq_refl eq_refl eq_refl).
Defined.

(** ** What reaches the gateway, and what comes back *)

Lemma translate_try_trace_cases (rt : Runtime) (request : Request) :
  trace (translate_try rt request) = []
  \/ exists d raw,
       get_json request = Return (PDict d)
       /\ dict_lookup (lit "text") d = Some (PStr raw)
       /\ 0 < len (strip raw) <= 5000
       /\ py_eq (dict_get d (lit "source_lang") (PStr (lit "auto")))
                (dict_get d (lit "target_lang") (PStr (lit "en")))
          && py_ne (dict_get d (lit "source_lang") (PStr (lit "auto")))
                   (PStr (lit "auto")) = false
       /\ translate_try rt request
          = translate_languages rt (strip raw)
              (dict_get d (lit "source_lang") (PStr (lit "auto")))
              (dict_get d (lit "target_lang") (PStr (lit "en"))).
Proof.
  destruct (get_json request) as [data | e] eqn:Hjson.
  - assert (Hother : (forall d, data <> PDict d) ->
                     trace (translate_try rt request) = []).
    { intros Hshape.
      destruct (translate_try_not_object rt _ Hjson Hshape) as [H | [msg H]];
        now rewrite H. }
    destruct data as [| b | z | f | s | l | d];
      try (left; apply Hother; intros d; discriminate).
    destruct (dict_lookup (lit "text") d) as [v |] eqn:Htext.
    + assert (Hnot : (forall s, v <> PStr s) ->
                     trace (translate_try rt request) = []).
      { intros Hv.
        now rewrite (translate_try_text_not_string rt _ Hjson Htext Hv). }
      destruct v as [| b | z | f | raw | l | d'];
        try (left; apply Hnot; intros s; discriminate).
      assert (Hbody := translate_try_with_text rt _ Hjson Htext).
      destruct (py_truthy (PStr (strip raw))) eqn:Ht;
        [| left; now rewrite Hbody].
      simpl negb in Hbody. cbv iota in Hbody.
      destruct (len (strip raw) >? 5000) eqn:Hlong;
        [left; now rewrite Hbody |].
      destruct (py_eq (dict_get d (lit "source_lang") (PStr (lit "auto")))
                      (dict_get d (lit "target_lang") (PStr (lit "en")))
                && py_ne (dict_get d (lit "source_lang") (PStr (lit "auto")))
                         (PStr (lit "auto"))) eqn:Hcheck.
      * left. rewrite Hbody.
        now rewrite (translate_languages_rejects rt (strip raw) _ _ Hcheck).
      * right. exists d, raw. repeat split; try assumption.
        -- destruct (strip raw); [discriminate Ht | unfold len; simpl; lia].
        -- rewrite Z.gtb_ltb in Hlong. now apply Z.ltb_ge.
    + left. rewrite (translate_try_no_text rt _ Hjson); [reflexivity |].
      right. now exists d.
  - left. unfold translate_try. now rewrite Hjson.
Qed.

(** X6: whatever the request, the gateway is only ever called with a
    string of 1 to 5000 characters that has no whitespace at either end,
    and with two languages that passed the check. *)
Theorem translate_gateway_precondition (rt : Runtime) (request : Request)
    (text source_lang target_lang : pyval) :
  In (CallTranslateText text source_lang target_lang)
     (trace (translate rt request)) ->
  exists t,
    text = PStr t
    /\ 0 < len t <= 5000
    /\ strip t = t
    /\ (py_eq source_lang target_lang = false
        \/ py_eq source_lang (PStr (lit "auto")) = true).
Proof.
  rewrite trace_translate.
  destruct (translate_try_trace_cases rt request)
    as [-> | (d & raw & _ & _ & Hlen & Hcheck & ->)]; [intros [] |].
  destruct (translate_languages_proceeds rt (strip raw) _ _ Hcheck)
    as (result & _ & ->).
  simpl trace. intros [Hhead | Hrest].
  - injection Hhead as <- <- <-. exists (strip raw). repeat split; try lia.
    + apply strip_fixed.
    + apply andb_false_iff in Hcheck as [H | H]; [now left | right].
      unfold py_ne in H. now apply negb_false_iff in H.
  - destruct (translate_text_trace_shape rt (PStr (strip raw))
                (dict_get d (lit "source_lang") (PStr (lit "auto")))
                (dict_get d (lit "target_lang") (PStr (lit "en"))))
      as [H | [url H]]; rewrite H in Hrest.
    + destruct Hrest.
    + destruct Hrest as [Hx | []]. discriminate Hx.
Qed.

Lemma translate_gateway_precondition_witness :
  exists t,
    PStr (lit "hello") = PStr t
    /\ 0 < len t <= 5000
    /\ strip t = t
    /\ (py_eq en fr = false \/ py_eq en (PStr (lit "auto")) = true).
Proof.
  apply (@translate_gateway_precondition
           (provider_answers 200 payload_bonjour)
           (json_request (request_body (PStr (blank ++ lit "hello")) en fr))
           (PStr (lit "hello")) en fr).
  left. reflexivity.
Defined.

Lemma translate_languages_envelope (rt : Runtime) (text : pystr)
    (source_lang target_lang : pyval) :
  exists v,
    outcome (translate_languages rt text source_lang target_lang)
    = Return (jsonify v)
    /\ is_envelope source_lang target_lang v.
Proof.
  destruct (py_eq source_lang target_lang
            && py_ne source_lang (PStr (lit "auto"))) eqn:Hcheck.
  - rewrite translate_languages_rejects by assumption.
    eexists. split; [reflexivity |]. right. now eexists.
  - destruct (translate_languages_proceeds rt text _ _ Hcheck)
      as (result & Hres & ->).
    destruct (translate_text_returns_envelope rt (PStr text)
                source_lang target_lang) as (v & Hv & Henv).
    exists result. split; [reflexivity |]. congruence.
Qed.

(** X7: every request, well-formed or not, is answered with one of the two
    envelopes, and serving it takes at most one call of the gateway and at
    most one GET. *)
Theorem translate_contract (rt : Runtime) (request : Request) :
  exists v,
    outcome (translate rt request) = Return (jsonify v)
    /\ (exists source_lang target_lang, is_envelope source_lang target_lang v)
    /\ (List.length (filter is_call (trace (translate rt request))) <= 1)%nat
    /\ (List.length (filter is_get (trace (translate rt request))) <= 1)%nat.
Proof.
  rewrite trace_translate. unfold translate. rewrite outcome_try_except.
  destruct (translate_try_trace_cases rt request)
    as [Hsilent | (d & raw & _ & _ & _ & Hcheck & Htry)].
  - rewrite Hsilent. simpl.
    destruct (outcome (translate_try rt request)) as [r | e] eqn:Hout.
    + unfold translate_try in Hout. do 3 py_step Hout.
      * injection Hout as <-. eexists. repeat split; try lia.
        exists PNone, PNone. right. now eexists.
      * do 5 py_step Hout; [| py_step Hout].
        -- injection Hout as <-. eexists. repeat split; try lia.
           exists PNone, PNone. right. now eexists.
        -- injection Hout as <-. eexists. repeat split; try lia.
           exists PNone, PNone. right. now eexists.
        -- destruct (translate_languages_envelope rt r3 r4 r5)
             as (v & Hv & Henv).
           rewrite Hv in Hout. injection Hout as <-.
           exists v. repeat split; try lia. now exists r4, r5.
    + eexists. repeat split; try lia.
      exists PNone, PNone. right. now eexists.
  - rewrite Htry.
    destruct (translate_languages_envelope rt (strip raw)
                (dict_get d (lit "source_lang") (PStr (lit "auto")))
                (dict_get d (lit "target_lang") (PStr (lit "en"))))
      as (v & Hv & Henv).
    rewrite Hv. exists v. split; [reflexivity |].
    split; [eexists; eexists; exact Henv |].
    destruct (translate_languages_proceeds rt (strip raw) _ _ Hcheck)
      as (result & _ & ->).
    simpl trace. simpl filter.
    destruct (translate_text_trace_shape rt (PStr (strip raw))
                (dict_get d (lit "source_lang") (PStr (lit "auto")))
                (dict_get d (lit "target_lang") (PStr (lit "en"))))
      as [H | [url H]]; rewrite H; simpl; lia.
Qed.

Lemma translate_text_get_fails_witness :
  outcome (translate_text (provider_unreachable (RequestException ReadTimeout))
             hello en fr)
  = Return (failure_envelope
              (PStr (lit "Network error: "
                       ++ exn_str (provider_unreachable
                                     (RequestException ReadTimeout))
                            (RequestException ReadTimeout)))).
Proof.
  apply (@translate_text_get_fails
           (provider_unreachable (RequestException ReadTimeout))
           (lit "hello") (lit "hello") en fr ReadTimeout);
    reflexivity.
Defined.

Lemma translate_text_error_status_witness :
  outcome (translate_text (provider_answers 503 payload_bonjour) hello en fr)
  = Return (failure_envelope
              (PStr (lit "Network error: "
                       ++ exn_str (provider_answers 503 payload_bonjour)
                            (RequestException (HTTPError 503))))).
Proof.
  apply (@translate_text_error_status
           (provider_answers 503 payload_bonjour)
           (lit "hello") (lit "hello") en fr
           {| status_code := 503; json := Return payload_bonjour |}
           eq_refl eq_refl).
  split; now vm_compute.
Defined.

Lemma translate_text_provider_failure_witness :
  outcome (translate_text (provider_answers 200 payload_invalid_pair)
             hello en fr)
  = Return (failure_envelope (PStr (lit "INVALID LANGUAGE PAIR")))
  /\ outcome (translate_text (provider_answers 200 (PDict [])) hello en fr)
     = Return (failure_envelope (PStr (lit "Translation failed"))).
Proof.
  split.
  - apply (@translate_text_provider_failure
             (provider_answers 200 payload_invalid_pair) hello en fr
             [(lit "responseStatus", PInt 403);
              (lit "responseDetails", PStr (lit "INVALID LANGUAGE PAIR"))]);
      reflexivity.
  - apply (@translate_text_provider_failure
             (provider_answers 200 (PDict [])) hello en fr []);
      reflexivity.
Defined.

(** ** From the request to the response *)

Lemma fetch_payload_returns (rt : Runtime) (s q : pystr)
    (source_lang target_lang data : pyval) (response : Response) :
  quote_str s = Return q ->
  requests_get rt (make_url rt q source_lang target_lang) = Return response ->
  ~ 400 <= status_code response < 600 ->
  json response = Return data ->
  outcome (fetch_payload rt (PStr s) source_lang target_lang) = Return data.
Proof.
  intros Hq Hget Hstatus Hjson. unfold fetch_payload, quote, lift.
  rewrite Hq. cbn. rewrite Hget. unfold raise_for_status.
  replace ((400 <=? status_code response) && (status_code response <? 600))
    with false.
  - cbn. now rewrite Hjson.
  - symmetry. apply not_true_is_false. intros H. apply Hstatus.
    apply andb_true_iff in H as [H1 H2].
    apply Z.leb_le in H1. apply Z.ltb_lt in H2. lia.
Qed.

(** X10: the whole path of a successful translation.  A well-formed request
    whose text has 1 to 5000 characters after stripping and whose languages
    pass the check, answered by the provider with a status outside 400 to
    599 and a payload of status 200 holding the translated text, gets the
    Success envelope with that text and its own two languages; the trace
    is the call of the gateway and the one GET for the URL made of the
    encoded stripped text and the two languages. *)
Theorem translate_end_to_end (rt : Runtime) (request : Request)
    (d : list (pystr * pyval)) (raw q : pystr) (response : Response)
    (data responseStatus translatedText : pyval) :
  get_json request = Return (PDict d) ->
  dict_lookup (lit "text") d = Some (PStr raw) ->
  0 < len (strip raw) <= 5000 ->
  let source_lang := dict_get d (lit "source_lang") (PStr (lit "auto")) in
  let target_lang := dict_get d (lit "target_lang") (PStr (lit "en")) in
  py_eq source_lang target_lang && py_ne source_lang (PStr (lit "auto")) = false ->
  quote_str (strip raw) = Return q ->
  requests_get rt (make_url rt q source_lang target_lang) = Return response ->
  ~ 400 <= status_code response < 600 ->
  json response = Return data ->
  outcome (py_get data (lit "responseStatus") PNone) = Return responseStatus ->
  py_eq responseStatus (PInt 200) = true ->
  outcome (responseData <- py_getitem data (lit "responseData") ;;
           py_getitem responseData (lit "translatedText"))
    = Return translatedText ->
  translate rt request
  = ([CallTranslateText (PStr (strip raw)) source_lang target_lang;
      HttpGet (make_url rt q source_lang target_lang)],
     Return (jsonify (success_envelope translatedText source_lang target_lang))).
Proof.
  intros Hjson Htext Hlen source_lang target_lang Hcheck Hq Hget Hstatus
         Hbody Hst H200 Hextract.
  assert (Htry := translate_try_passes_checks rt _ Hjson Htext Hlen).
  fold source_lang target_lang in Htry.
  rewrite (translate_of_try_languages _ _ _ _ _ Htry).
  destruct (translate_languages_proceeds rt (strip raw) _ _ Hcheck)
    as (result & Hres & ->).
  rewrite (@trace_translate_text rt (strip raw) q source_lang target_lang Hq).
  assert (Hfetch := @fetch_payload_returns rt (strip raw) q source_lang
                      target_lang data response Hq Hget Hstatus Hbody).
  assert (Hsuccess :
            outcome (translate_text rt (PStr (strip raw)) source_lang target_lang)
            = Return (success_envelope translatedText source_lang target_lang)).
  { unfold translate_text, translate_text_try.
    rewrite outcome_try_except, outcome_bind, Hfetch.
    unfold read_payload. rewrite outcome_bind, Hst, H200.
    rewrite outcome_bind in Hextract |- *.
    destruct (outcome (py_getitem data (lit "responseData"))) as [rd | e];
      [| discriminate].
    rewrite outcome_bind.
    destruct (outcome (py_getitem rd (lit "translatedText"))) as [t | e];
      [| discriminate].
    injection Hextract as ->. reflexivity. }
  rewrite Hsuccess in Hres. injection Hres as <-. reflexivity.
Qed.

(** [{"text": "  hello"}] with the defaults ['auto'] and ['en']. *)
Lemma translate_end_to_end_witness :
  translate (provider_answers 200 payload_bonjour)
            (json_request (text_only_body (PStr (blank ++ lit "hello"))))
  = ([CallTranslateText hello auto_detect en;
      HttpGet (lit "https://api.mymemory.translated.net/get?q=hello&langpair=auto|en")],
     Return (jsonify (success_envelope (PStr (lit "bonjour")) auto_detect en))).
Proof.
  assert (Hlen : 0 < len (strip (blank ++ lit "hello")) <= 5000)
    by (split; now vm_compute).
  assert (Hstatus : ~ 400 <= 200 < 600) by lia.
  apply (@translate_end_to_end
           (provider_answers 200 payload_bonjour)
           (json_request (text_only_body (PStr (blank ++ lit "hello"))))
           _ (blank ++ lit "hello") (lit "hello")
           {| status_code := 200; json := Return payload_bonjour |}
           payload_bonjour (PInt 200) (PStr (lit "bonjour"))
           eq_refl eq_refl Hlen eq_refl eq_refl eq_refl Hstatus
           eq_refl eq_refl eq_refl eq_refl).
Defined.

(** ** More on [quote] *)

Local Open Scope N_scope.

Lemma utf8_encode_char_None (c : N) :
  utf8_encode_char c = None <-> is_surrogate c = true.
Proof.
  unfold utf8_encode_char, is_surrogate.
  destruct (N.ltb_spec c 0x80); [| destruct (N.ltb_spec c 0x800)].
  - split; [discriminate |]. intros Hs. apply andb_true_iff in Hs as [Hs _].
    apply N.leb_le in Hs. lia.
  - split; [discriminate |]. intros Hs. apply andb_true_iff in Hs as [Hs _].
    apply N.leb_le in Hs. lia.
  - destruct ((0xD800 <=? c) && (c <=? 0xDFFF)); [tauto |].
    destruct (c <? 0x10000); split; discriminate.
Qed.

Lemma utf8_encode_char_length (c : N) (bs : list N) :
  utf8_encode_char c = Some bs -> (1 <= List.length bs <= 4)%nat.
Proof.
  unfold utf8_encode_char.
  destruct (c <? 0x80); [intros [= <-]; simpl; lia |].
  destruct (c <? 0x800); [intros [= <-]; simpl; lia |].
  destruct (is_surrogate c); [discriminate |].
  destruct (c <? 0x10000); intros [= <-]; simpl; lia.
Qed.

Lemma utf8_encode_from_length (s : pystr) (pos : nat) (bs : list N) :
  utf8_encode_from pos s = Return bs ->
  (List.length s <= List.length bs <= 4 * List.length s)%nat.
Proof.
  revert pos bs. induction s as [| c s IH]; intros pos bs; simpl.
  - intros [= <-]. simpl. lia.
  - destruct (utf8_encode_char c) as [bc |] eqn:Hc; [| discriminate].
    destruct (utf8_encode_from (S pos) s) as [r |] eqn:Hr; [| discriminate].
    intros [= <-]. rewrite length_app.
    apply utf8_encode_char_length in Hc. apply IH in Hr. lia.
Qed.

Lemma quoter_length (b : N) : (1 <= List.length (quoter b) <= 3)%nat.
Proof. unfold quoter. destruct (is_safe b); simpl; lia. Qed.

Lemma quote_from_bytes_length (bs : list N) :
  (List.length bs <= List.length (quote_from_bytes bs) <= 3 * List.length bs)%nat.
Proof.
  unfold quote_from_bytes. induction bs as [| b bs IH]; [simpl; lia |].
  cbn [flat_map]. rewrite length_app. pose proof (quoter_length b).
  cbn [List.length]. lia.
Qed.

(** X20: the encoded text is at least as long as the text and at most
    twelve times as long (four bytes for a code point, three characters
    for a byte). *)
Theorem quote_length_bound (s q : pystr) :
  quote_str s = Return q -> (len s <= len q <= 12 * len s)%Z.
Proof.
  unfold quote_str, utf8_encode, len. destruct s as [| c s].
  - intros [= <-]. simpl. lia.
  - destruct (utf8_encode_from 0 (c :: s)) as [bs |] eqn:Henc; [| discriminate].
    intros [= <-]. apply utf8_encode_from_length in Henc.
    pose proof (quote_from_bytes_length bs). lia.
Qed.

Lemma quote_length_bound_witness :
  (len konnichiwa <= len (lit "%E3%81%93%E3%82%93%E3%81%AB%E3%81%A1%E3%81%AF")
   <= 12 * len konnichiwa)%Z.
Proof.
  apply (@quote_length_bound konnichiwa
           (lit "%E3%81%93%E3%82%93%E3%81%AB%E3%81%A1%E3%81%AF")).
  reflexivity.
Defined.

Lemma utf8_encode_from_raises_iff (s : pystr) (pos : nat) (e : exn) :
  utf8_encode_from pos s = Raise e <->
  exists pre c post,
    s = pre ++ c :: post
    /\ existsb is_surrogate pre = false
    /\ is_surrogate c = true
    /\ e = UnicodeEncodeError (pos + List.length pre) c.
Proof.
  revert pos e. induction s as [| x s IH]; intros pos e; simpl.
  - split; [discriminate |]. intros (pre & c & post & H & _).
    now destruct pre.
  - destruct (utf8_encode_char x) as [bx |] eqn:Hx.
    + assert (Hns : is_surrogate x = false).
      { destruct (is_surrogate x) eqn:Hs; [| reflexivity].
        apply utf8_encode_char_None in Hs. congruence. }
      split.
      * destruct (utf8_encode_from (S pos) s) as [r | e'] eqn:Hr;
          [discriminate |].
        intros [= <-]. apply IH in Hr as (pre & c & post & -> & Hpre & Hc & ->).
        exists (x :: pre), c, post. simpl. rewrite Hns.
        repeat split; try assumption. f_equal. lia.
      * intros (pre & c & post & Hs & Hpre & Hc & ->).
        destruct pre as [| y pre]; simpl in Hs; injection Hs as -> ->.
        -- congruence.
        -- simpl in Hpre. apply orb_false_iff in Hpre as [_ Hpre].
           assert (Hr : utf8_encode_from (S pos) (pre ++ c :: post)
                        = Raise (UnicodeEncodeError (S pos + List.length pre) c)).
           { apply IH. now exists pre, c, post. }
           rewrite Hr. f_equal. f_equal. simpl. lia.
    + apply utf8_encode_char_None in Hx. split.
      * intros [= <-]. exists [], x, s. simpl. repeat split; try assumption.
        f_equal. lia.
      * intros (pre & c & post & Hs & Hpre & Hc & ->).
        destruct pre as [| y pre]; simpl in Hs; injection Hs as -> ->.
        -- f_equal. f_equal. simpl. lia.
        -- simpl in Hpre. rewrite Hx in Hpre. discriminate Hpre.
Qed.

(** X21: [quote] fails exactly on the strings that hold a surrogate code
    point, and the [UnicodeEncodeError] names the first one and its
    index. *)
Theorem quote_raises_iff (s : pystr) (e : exn) :
  quote_str s = Raise e <->
  exists pre c post,
    s = pre ++ c :: post
    /\ existsb is_surrogate pre = false
    /\ is_surrogate c = true
    /\ e = UnicodeEncodeError (List.length pre) c.
Proof.
  rewrite <- (utf8_encode_from_raises_iff s 0 e).
  unfold quote_str, utf8_encode. destruct s as [| c s].
  - simpl. split; discriminate.
  - destruct (utf8_encode_from 0 (c :: s)); split; congruence.
Qed.

Lemma is_safe_ascii (c : N) : is_safe c = true -> c < 0x80.
Proof.
  intros Hsafe. destruct (N.lt_ge_cases c 0x80) as [Hlt | Hge]; [exact Hlt |].
  exfalso. unfold is_safe in Hsafe.
  replace (c <=? 0x5A) with false in Hsafe by (symmetry; apply N.leb_gt; lia).
  replace (c <=? 0x7A) with false in Hsafe by (symmetry; apply N.leb_gt; lia).
  replace (c <=? 0x39) with false in Hsafe by (symmetry; apply N.leb_gt; lia).
  replace (c =? 0x5F) with false in Hsafe by (symmetry; apply N.eqb_neq; lia).
  replace (c =? 0x2E) with false in Hsafe by (symmetry; apply N.eqb_neq; lia).
  replace (c =? 0x2D) with false in Hsafe by (symmetry; apply N.eqb_neq; lia).
  replace (c =? 0x7E) with false in Hsafe by (symmetry; apply N.eqb_neq; lia).
  replace (c =? 0x2F) with false in Hsafe by (symmetry; apply N.eqb_neq; lia).
  rewrite !andb_false_r in Hsafe. discriminate Hsafe.
Qed.

Lemma utf8_encode_from_safe (s : pystr) (pos : nat) :
  forallb is_safe s = true -> utf8_encode_from pos s = Return s.
Proof.
  revert pos. induction s as [| c s IH]; intros pos; simpl; [reflexivity |].
  intros H. apply andb_true_iff in H as [Hc Hs].
  apply is_safe_ascii in Hc. unfold utf8_encode_char.
  destruct (N.ltb_spec c 0x80); [| lia]. now rewrite (IH (S pos) Hs).
Qed.

Lemma quote_from_bytes_safe (s : pystr) :
  forallb is_safe s = true -> quote_from_bytes s = s.
Proof.
  unfold quote_from_bytes. induction s as [| c s IH]; [reflexivity |].
  cbn [flat_map forallb]. intros H. apply andb_true_iff in H as [Hc Hs].
  rewrite (IH Hs). unfold quoter. now rewrite Hc.
Qed.

(** X19: a text made only of letters, digits and [_.-~/] is sent as it
    is: [quote] returns it unchanged. *)
Theorem quote_safe_identity (s : pystr) :
  forallb is_safe s = true -> quote_str s = Return s.
Proof.
  intros H. unfold quote_str, utf8_encode. destruct s as [| c s];
    [reflexivity |].
  now rewrite (@utf8_encode_from_safe (c :: s) 0%nat H),
    (@quote_from_bytes_safe (c :: s) H).
Qed.

Lemma quote_safe_identity_witness :
  quote_str (lit "zh-tw/Hello_World~1.0") = Return (lit "zh-tw/Hello_World~1.0").
Proof.
  apply (@quote_safe_identity (lit "zh-tw/Hello_World~1.0")). reflexivity.
Defined.

Lemma hex_digit_safe (n : N) : n < 16 -> is_safe (hex_digit n) = true.
Proof.
  intros Hn. unfold hex_digit, is_safe. destruct (N.ltb_spec n 10).
  - replace (0x30 <=? 0x30 + n) with true by (symmetry; apply N.leb_le; lia).
    replace (0x30 + n <=? 0x39) with true by (symmetry; apply N.leb_le; lia).
    simpl. now rewrite !orb_true_r.
  - replace (0x41 <=? 0x41 + (n - 10)) with true
      by (symmetry; apply N.leb_le; lia).
    replace (0x41 + (n - 10) <=? 0x5A) with true
      by (symmetry; apply N.leb_le; lia).
    reflexivity.
Qed.

Lemma quoter_url_safe (b : N) : is_byte b -> forallb url_safe (quoter b) = true.
Proof.
  unfold is_byte, quoter, url_safe. intros Hb.
  destruct (is_safe b) eqn:Hsafe; cbn [forallb].
  - now rewrite Hsafe.
  - rewrite !hex_digit_safe.
    + reflexivity.
    + now apply N.mod_lt.
    + apply N.Div0.div_lt_upper_bound. lia.
Qed.

Lemma utf8_encode_char_bytes (c : N) (bs : list N) :
  code_point c -> utf8_encode_char c = Some bs ->
  is_scalar c = true /\ Forall is_byte bs.
Proof.
  unfold code_point. intros Hc Henc.
  assert (Hscalar : is_scalar c = true).
  { unfold is_scalar. apply andb_true_iff. split; [now apply N.ltb_lt |].
    destruct (is_surrogate c) eqn:Hs; [| reflexivity].
    apply utf8_encode_char_None in Hs. congruence. }
  split; [exact Hscalar |].
  destruct (utf8_encode_char_decodes c Hscalar) as (bs' & Henc' & Hbytes & _).
  congruence.
Qed.

Lemma utf8_encode_from_bytes (s : pystr) (pos : nat) (bs : list N) :
  Forall code_point s -> utf8_encode_from pos s = Return bs ->
  forallb is_scalar s = true /\ Forall is_byte bs.
Proof.
  intros Hs. revert pos bs.
  induction Hs as [| c s Hc _ IH]; intros pos bs; simpl.
  - intros [= <-]. split; [reflexivity | constructor].
  - destruct (utf8_encode_char c) as [bc |] eqn:Henc; [| discriminate].
    destruct (utf8_encode_from (S pos) s) as [r |] eqn:Hr; [| discriminate].
    intros [= <-].
    destruct (utf8_encode_char_bytes Hc Henc) as [Hscalar Hbc].
    destruct (IH _ _ Hr) as [Hrest Hbr].
    split; [now rewrite Hscalar | now apply Forall_app].
Qed.

(** X18: the encoded text holds only letters, digits, [_.-~/] and the
    percent sign of its escapes: no [&], [=], [#], [?], [+] or space of
    the text can cut the query string or add a parameter to it. *)
Theorem quote_url_safe (s q : pystr) :
  Forall code_point s ->
  quote_str s = Return q ->
  forallb url_safe q = true
  /\ forall c, In c [0x26; 0x3D; 0x23; 0x3F; 0x2B; 0x20] -> ~ In c q.
Proof.
  intros Hs Hq.
  assert (Hsafe : forallb url_safe q = true).
  { unfold quote_str, utf8_encode in Hq. destruct s as [| c s].
    - now injection Hq as <-.
    - destruct (utf8_encode_from 0 (c :: s)) as [bs |] eqn:Henc;
        [| discriminate].
      injection Hq as <-.
      destruct (utf8_encode_from_bytes _ Hs Henc) as [_ Hbytes].
      unfold quote_from_bytes. clear Henc.
      induction Hbytes as [| b bs Hb _ IH]; [reflexivity |].
      cbn [flat_map]. now rewrite forallb_app, quoter_url_safe, IH. }
  split; [exact Hsafe |].
  intros c Hc Hin. rewrite forallb_forall in Hsafe. apply Hsafe in Hin.
  simpl in Hc.
  destruct Hc as [<- | [<- | [<- | [<- | [<- | [<- | []]]]]]];
    discriminate Hin.
Qed.

(** ["a&b=c d"] *)
Lemma quote_url_safe_witness :
  forallb url_safe (lit "a%26b%3Dc%20d") = true
  /\ forall c, In c [0x26; 0x3D; 0x23; 0x3F; 0x2B; 0x20] ->
               ~ In c (lit "a%26b%3Dc%20d").
Proof.
  apply (@quote_url_safe (lit "a&b=c d") (lit "a%26b%3Dc%20d")).
  - repeat constructor.
  - reflexivity.
Defined.

Lemma quote_str_decodes (s q : pystr) :
  Forall code_point s -> quote_str s = Return q -> url_decode q = Some s.
Proof.
  intros Hs Hq. unfold quote_str, utf8_encode in Hq. destruct s as [| c s].
  - now injection Hq as <-.
  - destruct (utf8_encode_from 0 (c :: s)) as [bs |] eqn:Henc; [| discriminate].
    injection Hq as <-.
    destruct (utf8_encode_from_bytes _ Hs Henc) as [Hscalar Hbytes].
    destruct (utf8_encode_decodes (c :: s) 0%nat Hscalar)
      as (bs' & Henc' & _ & Hdec).
    unfold url_decode. rewrite percent_decode_quote_from_bytes by assumption.
    congruence.
Qed.

(** X4: two different texts never get the same encoding: they are never
    sent as the same query value. *)
Theorem quote_injective (s s' q q' : pystr) :
  Forall code_point s -> Forall code_point s' ->
  quote_str s = Return q -> quote_str s' = Return q' ->
  s <> s' -> q <> q'.
Proof.
  intros Hs Hs' Hq Hq' Hdiff Hsame. subst q'. apply Hdiff.
  apply (quote_str_decodes Hs) in Hq. apply (quote_str_decodes Hs') in Hq'.
  congruence.
Qed.

(** A space, and the three characters of its escape. *)
Lemma quote_injective_witness : lit "a%20b" <> lit "a%2520b".
Proof.
  apply (@quote_injective (lit "a b") (lit "a%20b")
           (lit "a%20b") (lit "a%2520b")).
  - repeat constructor.
  - repeat constructor.
  - reflexivity.
  - reflexivity.
  - discriminate.
Defined.
